(** * Incoming sync integration (src/sync/incomingSyncUtils.js)

    A shallow embedding of the functions that merge sync records into the
    local database: the scalar parsers, the record sanity check, the
    reference resolver with its placeholders, the address lookup, the
    per-record-type dispatcher and the deletion handler.

    JavaScript numbers are IEEE doubles ([PrimFloat.float]); the built-in
    [parseFloat] is a parameter of the development.  The local database
    (the [database] module, a wrapper around Realm) is kept as a finite map
    from primary keys to objects. *)

From Stdlib Require Import PrimFloat Ascii String.
From stdpp Require Import gmap strings list fin_maps.

Local Open Scope string_scope.

(** ** Record types *)

(** The internal record type names the engine knows about.  [OtherType]
    stands for every other name (or for a failed translation of the
    external name); it only ever reaches the [default] branches. *)
Inductive recordType :=
  | Address | Item | ItemBatch | ItemCategory | ItemDepartment | ItemStoreJoin
  | MasterList | MasterListItem | MasterListNameJoin | Name | NameStoreJoin
  | NumberSequence | NumberToReuse | Requisition | RequisitionItem
  | Stocktake | StocktakeBatch | Transaction | TransactionBatch
  | TransactionCategory | User | OtherType.

Global Instance recordType_eq_dec : EqDecision recordType.
Proof. solve_decision. Defined.

Definition recordType_code (t : recordType) : nat :=
  match t with
  | Address => 0 | Item => 1 | ItemBatch => 2 | ItemCategory => 3
  | ItemDepartment => 4 | ItemStoreJoin => 5 | MasterList => 6
  | MasterListItem => 7 | MasterListNameJoin => 8 | Name => 9
  | NameStoreJoin => 10 | NumberSequence => 11 | NumberToReuse => 12
  | Requisition => 13 | RequisitionItem => 14 | Stocktake => 15
  | StocktakeBatch => 16 | Transaction => 17 | TransactionBatch => 18
  | TransactionCategory => 19 | User => 20 | OtherType => 21
  end%nat.

Definition recordType_of_code (n : nat) : recordType :=
  match n with
  | 0 => Address | 1 => Item | 2 => ItemBatch | 3 => ItemCategory
  | 4 => ItemDepartment | 5 => ItemStoreJoin | 6 => MasterList
  | 7 => MasterListItem | 8 => MasterListNameJoin | 9 => Name
  | 10 => NameStoreJoin | 11 => NumberSequence | 12 => NumberToReuse
  | 13 => Requisition | 14 => RequisitionItem | 15 => Stocktake
  | 16 => StocktakeBatch | 17 => Transaction | 18 => TransactionBatch
  | 19 => TransactionCategory | 20 => User | _ => OtherType
  end%nat.

Lemma recordType_of_code_code t : recordType_of_code (recordType_code t) = t.
Proof. by destruct t. Qed.

Global Instance recordType_countable : Countable recordType :=
  inj_countable' recordType_code recordType_of_code recordType_of_code_code.

(** ** JavaScript values *)

(** The primary key of an object: its type and its [id]. *)
Abbreviation key := (recordType * string)%type.

(** A [string] holds the UTF-8 bytes of a JavaScript string, whose [length]
    counts UTF-16 code units: one for a character of one, two or three
    bytes, two for a character of four bytes, none for the bytes that
    continue a character. *)
Definition utf16_units (c : Ascii.ascii) : nat :=
  let b := Ascii.nat_of_ascii c in
  if Nat.ltb b 128 then 1
  else if Nat.ltb b 192 then 0
  else if Nat.ltb b 240 then 1
  else 2.

Fixpoint utf16_length (s : string) : nat :=
  match s with
  | EmptyString => 0
  | String c s' => utf16_units c + utf16_length s'
  end.

(** [s.substring(start, stop)], the code units of [s] from [start] up to
    [stop]: kept symbolic, as the dates it is used for. *)
Inductive slice :=
  | Substring (s : string) (start stop : nat).

(** [new Date(iso)], [date.setHours(h, m, s)] and [new Date()] are kept
    symbolic: the model never inspects a date, it only stores it. *)
Inductive date :=
  | NewDate (iso : string)
  | SetHours (d : date) (hours minutes seconds : slice)
  | WallClock (tick : N).

Inductive value :=
  | VUndef
  | VNull
  | VBool (b : bool)
  | VNum (n : float)
  | VStr (s : string)
  | VDate (d : date)
  | VObj (k : key)            (* a relation, held by identity *)
  | VColl (ks : gset key).    (* a collection of related objects *)

(** A JavaScript object: its fields. *)
Abbreviation obj := (gmap string value).

(** The data of a sync record: a flat mapping from field names to strings. *)
Abbreviation raw := (gmap string string).

Definition nan : float := PrimFloat.div 0 0.

(** Truthiness of a number: neither zero nor NaN. *)
Definition truthy_num (n : float) : bool :=
  negb (PrimFloat.eqb n 0) && PrimFloat.eqb n n.

Definition truthy (v : value) : bool :=
  match v with
  | VUndef | VNull => false
  | VBool b => b
  | VNum n => truthy_num n
  | VStr s => negb (String.eqb s "")
  | VDate _ | VObj _ | VColl _ => true
  end.

(** [a && b]: the left operand when it is falsy, else the right one. *)
Definition js_and (a b : value) : value := if truthy a then b else a.
Infix "&&&" := js_and (at level 40, left associativity).

(** Reading a field of a sync record: the string, or [undefined]. *)
Definition of_raw (o : option string) : value :=
  match o with Some s => VStr s | None => VUndef end.

Definition fld (record : raw) (f : string) : value := of_raw (record !! f).

(** [typeof v === 'string'] *)
Definition typeof_string (v : value) : bool :=
  match v with VStr _ => true | _ => false end.

(** [v.length < n] for a string [v]; [undefined < n] is false otherwise.
    It is asked with [n = 1] only, of which the bytes decide as the code
    units do: a string has none of either, or some of both. *)
Definition length_lt (v : value) (n : nat) : bool :=
  match v with VStr s => Nat.ltb (String.length s) n | _ => false end.

(** ToNumber on the values that reach an arithmetic operator here: the
    results of [parseNumber] and the numeric fields read back from the
    database.  Strings, dates and objects never do and are sent to NaN. *)
Definition to_number (v : value) : float :=
  match v with
  | VNum n => n
  | VNull => 0
  | VBool true => 1
  | VBool false => 0
  | _ => nan
  end.

Definition js_mul (a b : value) : value :=
  VNum (PrimFloat.mul (to_number a) (to_number b)).
Definition js_div (a b : value) : value :=
  VNum (PrimFloat.div (to_number a) (to_number b)).

(** ** Scalar parsers *)

Section parsers.
(** The built-in [parseFloat]. *)
Variable parseFloat : string → float.

Definition parseNumber (numberString : option string) : value :=
  if negb (truthy (of_raw numberString)) || length_lt (of_raw numberString) 1
  then VNull
  else match numberString with
       | Some s => VNum (parseFloat s)
       | None => VNull
       end.
End parsers.

Definition trueStrings : list string := ["true"; "True"; "TRUE"].

(** [array.indexOf(x)]: the first index holding [x], or -1. *)
Fixpoint indexOf_from (l : list string) (x : string) (i : Z) : Z :=
  match l with
  | [] => (-1)%Z
  | y :: l' => if String.eqb y x then i else indexOf_from l' x (i + 1)%Z
  end.

Definition indexOf (l : list string) (x : option string) : Z :=
  match x with Some s => indexOf_from l s 0 | None => (-1)%Z end.

Definition parseBoolean (booleanString : option string) : value :=
  of_raw booleanString &&& VBool (0 <=? indexOf trueStrings booleanString)%Z.

Definition parseDate (ISODate ISOTime : option string) : value :=
  if negb (truthy (of_raw ISODate)) || length_lt (of_raw ISODate) 1
     || bool_decide (ISODate = Some "0000-00-00T00:00:00")
  then VNull
  else match ISODate with
       | None => VNull
       | Some iso =>
           let date := NewDate iso in
           match ISOTime with
           | Some t =>
               if truthy (VStr t) && negb (Nat.ltb (utf16_length t) 6)
               then VDate (SetHours date (Substring t 0 2)
                                         (Substring t 2 4)
                                         (Substring t 4 6))
               else VDate date
           | None => VDate date
           end
       end.

(** ** Record sanity check *)

Definition sanityCheckIncomingRecord (type : recordType) (record : raw) : value :=
  let f := fld record in
  if negb (truthy (f "ID")) || length_lt (f "ID") 1 then VBool false
  else match type with
  | Item => f "code" &&& f "item_name" &&& f "default_pack_size"
  | ItemCategory => VBool (typeof_string (f "Description"))
  | ItemDepartment => VBool (typeof_string (f "department"))
  | ItemBatch =>
      f "item_ID" &&& f "pack_size" &&& f "quantity" &&& f "batch"
      &&& f "expiry_date" &&& f "cost_price" &&& f "sell_price"
  | ItemStoreJoin => f "item_ID" &&& f "store_ID"
  | MasterListNameJoin => f "name_ID" &&& f "list_master_ID"
  | MasterList => VBool (typeof_string (f "description"))
  | MasterListItem => f "item_ID"
  | Name =>
      f "name" &&& f "code" &&& f "type" &&& f "customer"
      &&& f "supplier" &&& f "manufacturer"
  | NameStoreJoin => f "name_ID" &&& f "store_ID"
  | NumberSequence => f "name" &&& f "value"
  | NumberToReuse => f "name" &&& f "number_to_use"
  | Requisition =>
      f "status" &&& f "date_entered" &&& f "type" &&& f "daysToSupply"
      &&& f "serial_number"
  | RequisitionItem =>
      f "requisition_ID" &&& f "item_ID" &&& f "stock_on_hand"
      &&& f "Cust_stock_order"
  | Stocktake =>
      f "Description" &&& f "stock_take_created_date" &&& f "status"
      &&& f "serial_number"
  | StocktakeBatch =>
      f "stock_take_ID" &&& f "item_line_ID" &&& f "snapshot_qty"
      &&& f "snapshot_packsize" &&& f "expiry" &&& f "Batch"
      &&& f "cost_price" &&& f "sell_price"
  | Transaction =>
      f "invoice_num" &&& f "name_ID" &&& f "entry_date" &&& f "type"
      &&& f "status"
  | TransactionCategory => f "category" &&& f "code" &&& f "type"
  | TransactionBatch =>
      f "item_ID" &&& f "item_name" &&& f "item_line_ID" &&& f "batch"
      &&& f "expiry_date" &&& f "pack_size" &&& f "quantity"
      &&& f "transaction_ID" &&& f "cost_price" &&& f "sell_price"
  | _ => VBool false
  end.

(** ** The local database *)

(** Objects indexed by primary key. *)
Abbreviation store := (gmap key obj).

(** A call either returns or throws; a throw leaves the caller's
    transaction to deal with the database. *)
Inductive result (A : Type) :=
  | Ok (a : A)
  | Throw (e : string).
Arguments Ok {A} a.
Arguments Throw {A} e.

Definition M (A : Type) : Type := store → result (A * store).

Definition ret {A} (a : A) : M A := λ db, Ok (a, db).
Definition throw {A} (e : string) : M A := λ _, Throw e.
Definition bind {A B} (m : M A) (k : A → M B) : M B :=
  λ db, match m db with
        | Ok (a, db') => k a db'
        | Throw e => Throw e
        end.
Definition gets {A} (f : store → A) : M A := λ db, Ok (f db, db).
Definition modify (f : store → store) : M unit := λ db, Ok (tt, f db).

Notation "'let*' x ':=' m 'in' k" := (bind m (λ x, k))
  (at level 10, x name, m at level 100, k at level 200,
   format "'[v' 'let*'  x  ':='  m  'in' '/' k ']'").
Notation "m '>>' k" := (bind m (λ _, k))
  (at level 100, k at level 200, right associativity).

(** Modelled from the spec: the storage collaborator ([database] module,
    not part of the sources at hand).  [objects(type)] is the collection of
    all objects of a type, [filtered('f == $0', v)] narrows a collection to
    the objects whose field [f] is the string [v]; a query on [id] is a
    query on the primary key.  An unsorted collection is read in the order
    of the primary keys. *)
Definition objects (type : recordType) (db : store) : store :=
  filter (λ kv, kv.1.1 = type) db.

Definition prop_is (f v : string) (kv : key * obj) : bool :=
  if decide (f = "id") then bool_decide (kv.1.2 = v)
  else match kv.2 !! f with
       | Some (VStr s) => bool_decide (s = v)
       | _ => false
       end.

Definition filtered (f v : string) (results : store) : store :=
  filter (λ kv, prop_is f v kv) results.

(** [results[0]] when [results.length > 0]. *)
Definition first (results : store) : option key :=
  head (elements (dom results)).

(** Modelled from the spec: [create(entityType, fields)] inserts a new
    object under the identifier its fields carry (the underlying store
    refuses an identifier that is already taken); [update] is an upsert by
    identifier that overwrites every field. Both return the stored object. *)
Definition db_create (type : recordType) (o : obj) : M key :=
  match o !! "id" with
  | Some (VStr i) =>
      λ db, match db !! (type, i) with
            | Some _ => Throw "Attempting to create an object with an existing primary key."
            | None => Ok ((type, i), <[(type, i) := o]> db)
            end
  | _ => throw "Missing primary key."
  end.

Definition db_update (type : recordType) (o : obj) : M key :=
  match o !! "id" with
  | Some (VStr i) => λ db, Ok ((type, i), <[(type, i) := o]> db)
  | _ => throw "Missing primary key."
  end.

(** Modelled from the spec: [save] only notifies the database's listeners
    of a change already made to a live object. *)
Definition db_save (type : recordType) (o : option key) : M unit := ret tt.

(** Modelled from the spec: [delete(entityType, entity)] removes the
    object.  The cleanup the store's destructors add to a deletion (it
    detaches the object from the collections that held it) is not part of
    the model: of a deletion, only what becomes of the deleted object is
    stated below.  A null in place of an object is taken to be refused;
    nothing stated below deletes a null. *)
Definition db_delete (type : recordType) (o : option key) : M unit :=
  match o with
  | Some k => modify (delete k)
  | None => throw "Cannot delete null."
  end.

(** Modelled from the spec: [generateIdentifier()], a unique identifier:
    one that no object of the database carries. *)
Definition ids (db : store) : gset string := set_map snd (dom db).
Definition generateUUID : M string := gets (λ db, fresh (ids db)).

Definition TypeError {A} : M A := throw "TypeError: null has no properties.".

(** [o.f = v] on a live object. *)
Definition set_prop (o : option key) (f : string) (v : value) : M unit :=
  match o with
  | Some k => modify (alter (<[f := v]>) k)
  | None => TypeError
  end.

(** [o.f] on a live object. *)
Definition get_prop (o : option key) (f : string) : M value :=
  match o with
  | Some k => gets (λ db, match db !! k with
                          | Some fs => default VUndef (fs !! f)
                          | None => VUndef
                          end)
  | None => TypeError
  end.

(** Modelled from the spec: the "add dependent" methods of the parents
    ([addBatch], [addItem], [addTransaction], [addNumberToReuse],
    [addTransactionBatch]).  The parent keeps its dependents as a set. *)
Definition collection (fs : obj) (f : string) : gset key :=
  match fs !! f with Some (VColl ks) => ks | _ => ∅ end.

Definition add_to (f : string) (child : key) (fs : obj) : obj :=
  <[f := VColl ({[child]} ∪ collection fs f)]> fs.

Definition add_dependent (f : string) (parent : option key) (child : option key) : M unit :=
  match parent, child with
  | Some p, Some c => modify (alter (add_to f c) p)
  | _, _ => TypeError
  end.

(** A relation field: the related object, or [null]. *)
Definition ref (o : option key) : value :=
  match o with Some k => VObj k | None => VNull end.

(** An object literal. *)
Definition mkobj (fields : list (string * value)) : obj := list_to_map fields.
Arguments mkobj : simpl never.

(** ** Reference resolver *)

Section resolver.
(** The reading of the wall clock by [new Date()]. *)
Variable now : date.

Definition generatePlaceholder (type : recordType) (primaryKey : string) : M obj :=
  let placeholderString := VStr "placeholder" in
  let placeholderNumber := VNum 0 in
  let placeholderDate := VDate now in
  match type with
  | Address => ret (mkobj [("id", VStr primaryKey)])
  | Item =>
      ret (mkobj [("id", VStr primaryKey);
                  ("code", placeholderString);
                  ("name", placeholderString);
                  ("defaultPackSize", placeholderNumber)])
  | ItemCategory =>
      ret (mkobj [("id", VStr primaryKey); ("name", placeholderString)])
  | ItemDepartment =>
      ret (mkobj [("id", VStr primaryKey); ("name", placeholderString)])
  | ItemBatch =>
      ret (mkobj [("id", VStr primaryKey);
                  ("packSize", placeholderNumber);
                  ("numberOfPacks", placeholderNumber);
                  ("expiryDate", placeholderDate);
                  ("batch", placeholderString);
                  ("costPrice", placeholderNumber);
                  ("sellPrice", placeholderNumber)])
  | MasterList =>
      ret (mkobj [("id", VStr primaryKey); ("name", placeholderString)])
  | Name =>
      ret (mkobj [("id", VStr primaryKey);
                  ("name", placeholderString);
                  ("code", placeholderString);
                  ("type", placeholderString);
                  ("isCustomer", VBool false);
                  ("isSupplier", VBool false);
                  ("isManufacturer", VBool false)])
  | NumberSequence =>
      let* uuid := generateUUID in
      ret (mkobj [("id", VStr uuid); ("sequenceKey", VStr primaryKey)])
  | Stocktake =>
      ret (mkobj [("id", VStr primaryKey);
                  ("name", placeholderString);
                  ("createdDate", placeholderDate);
                  ("status", placeholderString);
                  ("serialNumber", placeholderString)])
  | Transaction =>
      ret (mkobj [("id", VStr primaryKey);
                  ("serialNumber", placeholderString);
                  ("comment", placeholderString);
                  ("entryDate", placeholderDate);
                  ("type", placeholderString);
                  ("status", placeholderString);
                  ("theirRef", placeholderString)])
  | TransactionCategory =>
      ret (mkobj [("id", VStr primaryKey);
                  ("name", placeholderString);
                  ("code", placeholderString);
                  ("type", placeholderString)])
  | User =>
      ret (mkobj [("id", VStr primaryKey);
                  ("username", placeholderString);
                  ("passwordHash", placeholderString)])
  | _ => throw "Unsupported database object type."
  end.

Definition getObject (type : recordType) (primaryKey : option string)
    (primaryKeyField : string) : M (option key) :=
  match primaryKey with
  | None => ret None
  | Some pk =>
      if negb (truthy (VStr pk)) || length_lt (VStr pk) 1 then ret None
      else
        let* results := gets (λ db, filtered primaryKeyField pk (objects type db)) in
        match first results with
        | Some k => ret (Some k)
        | None =>
            let* placeholder := generatePlaceholder type pk in
            let* o := db_create type placeholder in
            ret (Some o)
        end
  end.

(** ** Deletion handler *)

Definition deleteRecord (recordType : recordType) (recordId : option string) : M unit :=
  match recordType with
  | Item | ItemBatch | ItemCategory | ItemDepartment | ItemStoreJoin
  | MasterList | MasterListItem | MasterListNameJoin | Name | NameStoreJoin
  | NumberSequence | NumberToReuse | Requisition | RequisitionItem
  | Stocktake | StocktakeBatch | Transaction | TransactionBatch
  | TransactionCategory =>
      let* recordToDelete := getObject recordType recordId "id" in
      db_delete recordType recordToDelete
  | _ => ret tt
  end.

End resolver.

(** ** Address lookup *)

Definition filtered_if_string (f : string) (v : option string) (results : store) : store :=
  match v with
  | Some s => filtered f s results
  | None => results
  end.

Definition set_if_string (f : string) (v : option string) (address : obj) : obj :=
  match v with
  | Some s => <[f := VStr s]> address
  | None => address
  end.

Definition getOrCreateAddress (line1 line2 line3 line4 zipCode : option string) : M key :=
  let* results := gets (objects Address) in
  let results := filtered_if_string "line1" line1 results in
  let results := filtered_if_string "line2" line2 results in
  let results := filtered_if_string "line3" line3 results in
  let results := filtered_if_string "line4" line4 results in
  let results := filtered_if_string "zipCode" zipCode results in
  match first results with
  | Some k => ret k
  | None =>
      let* uuid := generateUUID in
      let address := mkobj [("id", VStr uuid)] in
      let address := set_if_string "line1" line1 address in
      let address := set_if_string "line2" line2 address in
      let address := set_if_string "line3" line3 address in
      let address := set_if_string "line4" line4 address in
      let address := set_if_string "zipCode" zipCode address in
      db_create Address address
  end.

(** ** Collaborators of the dispatcher *)

(** The translation tables of [syncTranslators], each read as
    [TABLE.translate(code, EXTERNAL_TO_INTERNAL)].  The sequence key
    translation also takes the identifier of this store and answers [null]
    ([None]) for a sequence of another store. *)
Record translators := {
  NAME_TYPES : option string → value;
  STATUSES : option string → value;
  REQUISITION_TYPES : option string → value;
  TRANSACTION_TYPES : option string → value;
  SEQUENCE_KEYS : option string → option string → option string;
}.

(** [settings.get(THIS_STORE_ID)] *)
Record Settings := { get_THIS_STORE_ID : option string }.

(** ** Record integration dispatcher *)

Section dispatcher.
Variable parseFloat : string → float.
Variable now : date.
Variable T : translators.
Variable settings : Settings.

Let parseNumber := parseNumber parseFloat.
Let getObject := getObject now.

Definition createOrUpdateRecord (recordType : recordType) (record : raw) : M unit :=
  let f := fld record in
  if negb (truthy (sanityCheckIncomingRecord recordType record)) then ret tt
  else match recordType with
  | Item =>
      let packSize := parseNumber (record !! "default_pack_size") in
      let* category := getObject ItemCategory (record !! "category_ID") "id" in
      let* department := getObject ItemDepartment (record !! "department_ID") "id" in
      let internalRecord := mkobj [
        ("id", f "ID");
        ("category", ref category);
        ("code", f "code");
        ("defaultPackSize", VNum 1);
        ("defaultPrice",
           if truthy packSize
           then js_div (parseNumber (record !! "buy_price")) packSize
           else VNum 0);
        ("department", ref department);
        ("description", f "description");
        ("name", f "item_name")] in
      let* _ := db_update Item internalRecord in
      ret tt
  | ItemCategory =>
      let internalRecord := mkobj [("id", f "ID"); ("name", f "Description")] in
      let* _ := db_update ItemCategory internalRecord in
      ret tt
  | ItemDepartment =>
      let internalRecord := mkobj [("id", f "ID"); ("name", f "department")] in
      let* _ := db_update ItemDepartment internalRecord in
      ret tt
  | ItemBatch =>
      let* item := getObject Item (record !! "item_ID") "id" in
      let packSize := parseNumber (record !! "pack_size") in
      let* supplier := getObject Name (record !! "name_ID") "id" in
      let internalRecord := mkobj [
        ("id", f "ID");
        ("item", ref item);
        ("packSize", VNum 1);
        ("numberOfPacks", js_mul (parseNumber (record !! "quantity")) packSize);
        ("expiryDate", parseDate (record !! "expiry_date") None);
        ("batch", f "batch");
        ("costPrice",
           if truthy packSize
           then js_div (parseNumber (record !! "sell_price")) packSize
           else VNum 0);
        ("sellPrice",
           if truthy packSize
           then js_div (parseNumber (record !! "sell_price")) packSize
           else VNum 0);
        ("supplier", ref supplier)] in
      let* itemBatch := db_update ItemBatch internalRecord in
      add_dependent "batches" item (Some itemBatch) >>
      db_save Item item
  | ItemStoreJoin =>
      let joinsThisStore :=
        bool_decide (record !! "store_ID" = get_THIS_STORE_ID settings) in
      let internalRecord := mkobj [
        ("id", f "ID");
        ("itemId", f "item_ID");
        ("joinsThisStore", VBool joinsThisStore)] in
      let* _ := db_update ItemStoreJoin internalRecord in
      if joinsThisStore then
        let* item := getObject Item (record !! "item_ID") "id" in
        set_prop item "isVisible"
          (VBool (negb (truthy (parseBoolean (record !! "inactive"))))) >>
        db_save Item item
      else ret tt
  | MasterListNameJoin =>
      let* name := getObject Name (record !! "name_ID") "id" in
      let* masterList := getObject MasterList (record !! "list_master_ID") "id" in
      set_prop name "masterList" (ref masterList) >>
      db_save Name name >>
      let internalRecord := mkobj [
        ("id", f "ID");
        ("name", ref name);
        ("masterList", ref masterList)] in
      let* _ := db_update MasterListNameJoin internalRecord in
      ret tt
  | MasterList =>
      let internalRecord := mkobj [
        ("id", f "ID");
        ("name", f "description");
        ("note", f "note")] in
      let* _ := db_update MasterList internalRecord in
      ret tt
  | MasterListItem =>
      let* masterList := getObject MasterList (record !! "item_master_ID") "id" in
      let* item := getObject Item (record !! "item_ID") "id" in
      let internalRecord := mkobj [
        ("id", f "ID");
        ("item", ref item);
        ("imprestQuantity", parseNumber (record !! "imprest_quan"));
        ("masterList", ref masterList)] in
      let* masterListItem := db_update MasterListItem internalRecord in
      add_dependent "items" masterList (Some masterListItem)
  | Name =>
      let* billingAddress :=
        getOrCreateAddress (record !! "bill_address1")
                           (record !! "bill_address2")
                           (record !! "bill_address3")
                           (record !! "bill_address4")
                           (record !! "bill_postal_zip_code") in
      let internalRecord := mkobj [
        ("id", f "ID");
        ("name", f "name");
        ("code", f "code");
        ("phoneNumber", f "phone");
        ("billingAddress", VObj billingAddress);
        ("emailAddress", f "email");
        ("type", NAME_TYPES T (record !! "type"));
        ("isCustomer", parseBoolean (record !! "customer"));
        ("isSupplier", parseBoolean (record !! "supplier"));
        ("isManufacturer", parseBoolean (record !! "manufacturer"));
        ("supplyingStoreId", f "supplying_store_id")] in
      let* _ := db_update Name internalRecord in
      ret tt
  | NameStoreJoin =>
      let joinsThisStore :=
        bool_decide (record !! "store_ID" = get_THIS_STORE_ID settings) in
      let internalRecord := mkobj [
        ("id", f "ID");
        ("nameId", f "name_ID");
        ("joinsThisStore", VBool joinsThisStore)] in
      let* _ := db_update NameStoreJoin internalRecord in
      if joinsThisStore then
        let* name := getObject Name (record !! "name_ID") "id" in
        set_prop name "isVisible"
          (VBool (negb (truthy (parseBoolean (record !! "inactive"))))) >>
        db_save Name name
      else ret tt
  | NumberSequence =>
      let thisStoreId := get_THIS_STORE_ID settings in
      let sequenceKey := SEQUENCE_KEYS T (record !! "name") thisStoreId in
      if negb (truthy (of_raw sequenceKey)) then ret tt
      else
        let internalRecord := mkobj [
          ("id", f "ID");
          ("sequenceKey", of_raw sequenceKey);
          ("highestNumberUsed", parseNumber (record !! "value"))] in
        let* _ := db_update NumberSequence internalRecord in
        ret tt
  | NumberToReuse =>
      let thisStoreId := get_THIS_STORE_ID settings in
      let sequenceKey := SEQUENCE_KEYS T (record !! "name") thisStoreId in
      if negb (truthy (of_raw sequenceKey)) then ret tt
      else
        let* numberSequence := getObject NumberSequence sequenceKey "sequenceKey" in
        let internalRecord := mkobj [
          ("id", f "ID");
          ("numberSequence", ref numberSequence);
          ("number", parseNumber (record !! "number_to_use"))] in
        let* numberToReuse := db_update NumberToReuse internalRecord in
        add_dependent "numbersToReuse" numberSequence (Some numberToReuse)
  | Requisition =>
      let* user := getObject User (record !! "user_ID") "id" in
      let internalRecord := mkobj [
        ("id", f "ID");
        ("status", STATUSES T (record !! "status"));
        ("entryDate", parseDate (record !! "date_entered") None);
        ("daysToSupply", parseNumber (record !! "daysToSupply"));
        ("serialNumber", f "serial_number");
        ("user", ref user);
        ("type", REQUISITION_TYPES T (record !! "type"))] in
      let* _ := db_update Requisition internalRecord in
      ret tt
  | RequisitionItem =>
      let* requisition := getObject Requisition (record !! "requisition_ID") "id" in
      let* daysToSupply := get_prop requisition "daysToSupply" in
      let dailyUsage :=
        if truthy daysToSupply
        then js_div (parseNumber (record !! "Cust_stock_order")) daysToSupply
        else VNum 0 in
      let* item := getObject Item (record !! "item_ID") "id" in
      let internalRecord := mkobj [
        ("id", f "ID");
        ("requisition", ref requisition);
        ("item", ref item);
        ("stockOnHand", parseNumber (record !! "stock_on_hand"));
        ("dailyUsage", dailyUsage);
        ("imprestQuantity", parseNumber (record !! "imprest_or_prev_quantity"));
        ("requiredQuantity", parseNumber (record !! "actualQuan"));
        ("comment", f "comment");
        ("sortIndex", parseNumber (record !! "line_number"))] in
      let* requisitionItem := db_update RequisitionItem internalRecord in
      add_dependent "items" requisition (Some requisitionItem) >>
      db_save Requisition requisition
  | Stocktake =>
      let* createdBy := getObject User (record !! "created_by_ID") "id" in
      let* finalisedBy := getObject User (record !! "finalised_by_ID") "id" in
      let* additions := getObject Transaction (record !! "invad_additions_ID") "id" in
      let* reductions := getObject Transaction (record !! "invad_reductions_ID") "id" in
      let internalRecord := mkobj [
        ("id", f "ID");
        ("name", f "Description");
        ("createdDate", parseDate (record !! "stock_take_created_date") None);
        ("stocktakeDate",
           parseDate (record !! "stock_take_date") (record !! "stock_take_time"));
        ("status", STATUSES T (record !! "status"));
        ("createdBy", ref createdBy);
        ("finalisedBy", ref finalisedBy);
        ("comment", f "comment");
        ("serialNumber", f "serial_number");
        ("additions", ref additions);
        ("reductions", ref reductions)] in
      let* _ := db_update Stocktake internalRecord in
      ret tt
  | StocktakeBatch =>
      let* stocktake := getObject Stocktake (record !! "stock_take_ID") "id" in
      let packSize := parseNumber (record !! "snapshot_packsize") in
      let numPacks := js_mul (parseNumber (record !! "snapshot_qty")) packSize in
      let* itemBatch := getObject ItemBatch (record !! "item_line_ID") "id" in
      let internalRecord := mkobj [
        ("id", f "ID");
        ("stocktake", ref stocktake);
        ("itemBatch", ref itemBatch);
        ("snapshotNumberOfPacks", numPacks);
        ("packSize", VNum 1);
        ("expiry", parseDate (record !! "expiry") None);
        ("batch", f "Batch");
        ("costPrice",
           if truthy packSize
           then js_div (parseNumber (record !! "cost_price")) packSize
           else VNum 0);
        ("sellPrice",
           if truthy packSize
           then js_div (parseNumber (record !! "sell_price")) packSize
           else VNum 0);
        ("countedNumberOfPacks", numPacks);
        ("sortIndex", parseNumber (record !! "line_number"))] in
      let* stocktakeBatch := db_update StocktakeBatch internalRecord in
      add_dependent "batches" stocktake (Some stocktakeBatch) >>
      db_save Stocktake stocktake
  | Transaction =>
      let* otherParty := getObject Name (record !! "name_ID") "id" in
      let internalRecord := mkobj [
        ("id", f "ID");
        ("serialNumber", f "invoice_num");
        ("comment", f "comment");
        ("entryDate", parseDate (record !! "entry_date") None);
        ("type", TRANSACTION_TYPES T (record !! "type"));
        ("status", STATUSES T (record !! "status"));
        ("confirmDate", parseDate (record !! "confirm_date") None);
        ("theirRef", f "their_ref")] in
      let* transaction := db_update Transaction internalRecord in
      set_prop (Some transaction) "otherParty" (ref otherParty) >>
      let* enteredBy := getObject User (record !! "user_ID") "id" in
      set_prop (Some transaction) "enteredBy" (ref enteredBy) >>
      let* category := getObject TransactionCategory (record !! "category_ID") "id" in
      set_prop (Some transaction) "category" (ref category) >>
      add_dependent "transactions" otherParty (Some transaction) >>
      db_save Name otherParty
  | TransactionCategory =>
      let internalRecord := mkobj [
        ("id", f "ID");
        ("name", f "category");
        ("code", f "code");
        ("type", TRANSACTION_TYPES T (record !! "type"))] in
      let* _ := db_update TransactionCategory internalRecord in
      ret tt
  | TransactionBatch =>
      let* transaction := getObject Transaction (record !! "transaction_ID") "id" in
      let* itemBatch := getObject ItemBatch (record !! "item_line_ID") "id" in
      let* item := getObject Item (record !! "item_ID") "id" in
      set_prop itemBatch "item" (ref item) >>
      add_dependent "batches" item itemBatch >>
      let packSize := parseNumber (record !! "pack_size") in
      let internalRecord := mkobj [
        ("id", f "ID");
        ("itemId", f "item_ID");
        ("itemName", f "item_name");
        ("itemBatch", ref itemBatch);
        ("packSize", VNum 1);
        ("numberOfPacks", js_mul (parseNumber (record !! "quantity")) packSize);
        ("numberOfPacksSent", js_mul (parseNumber (record !! "quantity")) packSize);
        ("transaction", ref transaction);
        ("note", f "note");
        ("costPrice",
           if truthy packSize
           then js_div (parseNumber (record !! "cost_price")) packSize
           else VNum 0);
        ("sellPrice",
           if truthy packSize
           then js_div (parseNumber (record !! "sell_price")) packSize
           else VNum 0);
        ("sortIndex", parseNumber (record !! "line_number"));
        ("expiryDate", parseDate (record !! "expiry_date") None);
        ("batch", f "batch")] in
      let* transactionBatch := db_update TransactionBatch internalRecord in
      add_dependent "batches" transaction (Some transactionBatch) >>
      db_save Transaction transaction >>
      add_dependent "transactionBatches" itemBatch (Some transactionBatch) >>
      db_save ItemBatch itemBatch
  | _ => ret tt
  end.
End dispatcher.

(** ** Integration entry point *)

(** A sync record as it comes off the wire: every part may be missing. *)
Record syncRecord := {
  RecordType : option string;
  SyncType : option string;
  RecordID : option string;
  data : option raw;
}.

(** [CHANGE_TYPES] of the database module. *)
Inductive changeType := CREATE | UPDATE | DELETE.

(** [SYNC_TYPES.translate(syncType, EXTERNAL_TO_INTERNAL)], with [None] for
    an answer that is none of the three change types, and
    [RECORD_TYPES.translate(recordType, EXTERNAL_TO_INTERNAL)]. *)
Record entryTranslators := {
  SYNC_TYPES : string → option changeType;
  RECORD_TYPES : string → recordType;
}.

Section entry.
Variable parseFloat : string → float.
Variable now : date.
Variable T : translators.
Variable E : entryTranslators.
Variable settings : Settings.

Definition integrateRecord (syncRecord : syncRecord) : M unit :=
  if negb (truthy (of_raw (RecordType syncRecord)))
     || negb (truthy (of_raw (SyncType syncRecord)))
  then ret tt
  else
    match SyncType syncRecord, RecordType syncRecord with
    | Some syncType, Some recordType =>
        let changeType := SYNC_TYPES E syncType in
        let internalRecordType := RECORD_TYPES E recordType in
        match changeType with
        | Some CREATE | Some UPDATE =>
            match data syncRecord with
            | None => ret tt
            | Some record =>
                createOrUpdateRecord parseFloat now T settings internalRecordType record
            end
        | Some DELETE =>
            if negb (truthy (of_raw (RecordID syncRecord))) then ret tt
            else deleteRecord now internalRecordType (RecordID syncRecord)
        | None =>
            throw ("Cannot integrate sync record with sync type " ++ syncType)
        end
    | _, _ => ret tt
    end.
End entry.

(** * Vocabulary of the properties *)

(** ** Strings *)

Definition lower_ascii (c : Ascii.ascii) : Ascii.ascii :=
  let n := Ascii.nat_of_ascii c in
  if (Nat.leb 65 n && Nat.leb n 90)%bool then Ascii.ascii_of_nat (n + 32) else c.

Fixpoint lowercase (s : string) : string :=
  match s with
  | EmptyString => EmptyString
  | String c s' => String (lower_ascii c) (lowercase s')
  end.

(** Equality of strings up to the case of the letters. *)
Definition equal_ignoring_case (s t : string) : Prop := lowercase s = lowercase t.

(** A field of a sync record that is there and not the empty string. *)
Definition nonempty (o : option string) : Prop := ∃ s, o = Some s ∧ s ≠ "".

(** ** What the sanity check asks of each record type *)

(** The record types checked with [typeof ... === 'string'], and the field
    they check. *)
Definition descriptive_field (type : recordType) : option string :=
  match type with
  | ItemCategory => Some "Description"
  | ItemDepartment => Some "department"
  | MasterList => Some "description"
  | _ => None
  end.

(** The fields the other record types need to be truthy. *)
Definition required_fields (type : recordType) : option (list string) :=
  match type with
  | Item => Some ["code"; "item_name"; "default_pack_size"]
  | ItemBatch =>
      Some ["item_ID"; "pack_size"; "quantity"; "batch"; "expiry_date";
            "cost_price"; "sell_price"]
  | ItemStoreJoin => Some ["item_ID"; "store_ID"]
  | MasterListNameJoin => Some ["name_ID"; "list_master_ID"]
  | MasterListItem => Some ["item_ID"]
  | Name => Some ["name"; "code"; "type"; "customer"; "supplier"; "manufacturer"]
  | NameStoreJoin => Some ["name_ID"; "store_ID"]
  | NumberSequence => Some ["name"; "value"]
  | NumberToReuse => Some ["name"; "number_to_use"]
  | Requisition =>
      Some ["status"; "date_entered"; "type"; "daysToSupply"; "serial_number"]
  | RequisitionItem =>
      Some ["requisition_ID"; "item_ID"; "stock_on_hand"; "Cust_stock_order"]
  | Stocktake =>
      Some ["Description"; "stock_take_created_date"; "status"; "serial_number"]
  | StocktakeBatch =>
      Some ["stock_take_ID"; "item_line_ID"; "snapshot_qty"; "snapshot_packsize";
            "expiry"; "Batch"; "cost_price"; "sell_price"]
  | Transaction =>
      Some ["invoice_num"; "name_ID"; "entry_date"; "type"; "status"]
  | TransactionCategory => Some ["category"; "code"; "type"]
  | TransactionBatch =>
      Some ["item_ID"; "item_name"; "item_line_ID"; "batch"; "expiry_date";
            "pack_size"; "quantity"; "transaction_ID"; "cost_price"; "sell_price"]
  | _ => None
  end.

(** The records a type accepts, once the identifier is in order. *)
Definition accepts (type : recordType) (record : raw) : Prop :=
  match descriptive_field type with
  | Some d => is_Some (record !! d)
  | None =>
      match required_fields type with
      | Some fs => Forall (λ f, nonempty (record !! f)) fs
      | None => False
      end
  end.

(** The record types the sync can create, update and delete. *)
Definition supported (type : recordType) : bool :=
  match type with
  | Address | User | OtherType => false
  | _ => true
  end.

(** ** The reference resolver by primary key *)

(** [database.objects(type).filtered('f == $0', v)] *)
Definition query (type : recordType) (f v : string) (db : store) : store :=
  filtered f v (objects type db).

(** The placeholder of a type whose template carries the requested key as
    its [id]: every template but the one of NumberSequence. *)
Definition template (now : date) (type : recordType) (pk : string) : option obj :=
  match type with
  | NumberSequence => None
  | _ => match generatePlaceholder now type pk ∅ with
         | Ok (o, _) => Some o
         | Throw _ => None
         end
  end.
Arguments template : simpl never.

(** The record types [generatePlaceholder] has a [case] for. *)
Definition has_template (type : recordType) : bool :=
  match type with
  | Address | Item | ItemCategory | ItemDepartment | ItemBatch | MasterList
  | Name | NumberSequence | Stocktake | Transaction | TransactionCategory
  | User => true
  | _ => false
  end.

(** The object [getObject] answers for a primary key: none for a missing
    or empty key. *)
Definition handle (type : recordType) (primaryKey : option string) : option key :=
  match primaryKey with
  | Some pk => if String.eqb pk "" then None else Some (type, pk)
  | None => None
  end.
Arguments handle : simpl never.

(** The database once [getObject] has made sure the object is there. *)
Definition ensure (now : date) (type : recordType) (primaryKey : option string)
    (db : store) : store :=
  match handle type primaryKey with
  | Some k =>
      match db !! k, template now type k.2 with
      | None, Some o => <[k := o]> db
      | _, _ => db
      end
  | None => db
  end.
Arguments ensure : simpl never.

(** [present o k db]: the database with [o] stored under [k] unless [k]
    already has an object. *)
Definition present (o : obj) (k : key) (db : store) : store :=
  match db !! k with Some _ => db | None => <[k := o]> db end.
Arguments present : simpl never.

Definition tmpl (now : date) (k : key) : obj := default ∅ (template now k.1 k.2).
Arguments tmpl : simpl never.

(** ** Addresses *)

(** An address field meets a line of the request: any field does when the
    line is not supplied. *)
Definition line_is (f : string) (v : option string) (kv : key * obj) : bool :=
  match v with Some s => prop_is f s kv | None => true end.

Definition address_matches (line1 line2 line3 line4 zipCode : option string)
    (kv : key * obj) : bool :=
  line_is "line1" line1 kv && line_is "line2" line2 kv && line_is "line3" line3 kv
  && line_is "line4" line4 kv && line_is "zipCode" zipCode kv.

(** The addresses that meet a request. *)
Definition address_query (line1 line2 line3 line4 zipCode : option string)
    (db : store) : store :=
  filtered_if_string "zipCode" zipCode
    (filtered_if_string "line4" line4
       (filtered_if_string "line3" line3
          (filtered_if_string "line2" line2
             (filtered_if_string "line1" line1 (objects Address db))))).

(** The address [getOrCreateAddress] builds when none matches. *)
Definition new_address (uuid : string) (line1 line2 line3 line4 zipCode : option string) : obj :=
  set_if_string "zipCode" zipCode
    (set_if_string "line4" line4
       (set_if_string "line3" line3
          (set_if_string "line2" line2
             (set_if_string "line1" line1 (mkobj [("id", VStr uuid)]))))).

(** The fields of an address made of an identifier and the supplied
    lines, and of nothing else. *)
Definition supplied_field (uuid : string) (line1 line2 line3 line4 zipCode : option string)
    (f : string) : option value :=
  if decide (f = "id") then Some (VStr uuid)
  else if decide (f = "line1") then VStr <$> line1
  else if decide (f = "line2") then VStr <$> line2
  else if decide (f = "line3") then VStr <$> line3
  else if decide (f = "line4") then VStr <$> line4
  else if decide (f = "zipCode") then VStr <$> zipCode
  else None.

(** ** Derived fields *)

(** The first value an object literal gives to a field. *)
Fixpoint assoc (f : string) (l : list (string * value)) : option value :=
  match l with
  | [] => None
  | (g, v) :: l' => if String.eqb g f then Some v else assoc f l'
  end.

(** For the batch record types: the sync fields holding the pack size and
    the quantity, and the fields of the object that hold a pack count. *)
Definition batch_fields (type : recordType) : option (string * string * list string) :=
  match type with
  | ItemBatch => Some ("pack_size", "quantity", ["numberOfPacks"])
  | StocktakeBatch =>
      Some ("snapshot_packsize", "snapshot_qty",
            ["snapshotNumberOfPacks"; "countedNumberOfPacks"])
  | TransactionBatch =>
      Some ("pack_size", "quantity", ["numberOfPacks"; "numberOfPacksSent"])
  | _ => None
  end.

(** For the record types with prices: the sync field holding the pack
    size, and the price fields of the object. *)
Definition price_fields (type : recordType) : option (string * list string) :=
  match type with
  | Item => Some ("default_pack_size", ["defaultPrice"])
  | ItemBatch => Some ("pack_size", ["costPrice"; "sellPrice"])
  | StocktakeBatch => Some ("snapshot_packsize", ["costPrice"; "sellPrice"])
  | TransactionBatch => Some ("pack_size", ["costPrice"; "sellPrice"])
  | _ => None
  end.

(** ** Concrete collaborators, to run the functions on examples *)

Definition digit_value (c : Ascii.ascii) : option float :=
  match c with
  | "0"%char => Some 0%float | "1"%char => Some 1%float
  | "2"%char => Some 2%float | "3"%char => Some 3%float
  | "4"%char => Some 4%float | "5"%char => Some 5%float
  | "6"%char => Some 6%float | "7"%char => Some 7%float
  | "8"%char => Some 8%float | "9"%char => Some 9%float
  | _ => None
  end.

Fixpoint digits_value (s : string) (acc : float) : float :=
  match s with
  | EmptyString => acc
  | String c s' =>
      match digit_value c with
      | Some d => digits_value s' (PrimFloat.add (PrimFloat.mul acc 10) d)
      | None => acc
      end
  end.

(** [parseFloat] on strings that start with an unsigned decimal integer;
    NaN when there is no leading digit. *)
Definition parseFloat_digits (s : string) : float :=
  match s with
  | EmptyString => nan
  | String c _ =>
      match digit_value c with
      | Some _ => digits_value s 0
      | None => nan
      end
  end.

(** Translation tables that keep the external code, and a sequence key
    table in which the sequences of store ["store1"] are the ones whose
    name ends in ["_for_store_store1"]. *)
Definition example_translators : translators := {|
  NAME_TYPES := of_raw;
  STATUSES := of_raw;
  REQUISITION_TYPES := of_raw;
  TRANSACTION_TYPES := of_raw;
  SEQUENCE_KEYS := λ name thisStoreId,
    match name, thisStoreId with
    | Some "stocktake_serial_number_for_store_store1", Some "store1" =>
        Some "stocktake_serial_number"
    | _, _ => None
    end;
|}.

Definition example_settings : Settings := {| get_THIS_STORE_ID := Some "store1" |}.

Definition example_address_db : store :=
  {[ (Address, "a1") := mkobj [("id", VStr "a1"); ("line1", VStr "1 High St");
                               ("zipCode", VStr "6011")] ]}.

Definition example_requisition_item : raw :=
  list_to_map [("ID", "ri1"); ("requisition_ID", "r1"); ("item_ID", "i1");
               ("stock_on_hand", "4"); ("Cust_stock_order", "12")].

Definition example_requisition_db : store :=
  {[ (Requisition, "r1") := mkobj [("id", VStr "r1"); ("daysToSupply", VNum 0)] ]}.

Definition example_item_batch (packSize : string) : raw :=
  list_to_map [("ID", "b1"); ("item_ID", "i1"); ("pack_size", packSize);
               ("quantity", "4"); ("batch", "B17");
               ("expiry_date", "2020-01-01T00:00:00");
               ("cost_price", "5"); ("sell_price", "6")].

(** An ItemBatch record that carries no pack size. *)
Definition example_item_batch_no_pack_size : raw :=
  list_to_map [("ID", "b1"); ("item_ID", "i1"); ("quantity", "4"); ("batch", "B17");
               ("expiry_date", "2020-01-01T00:00:00");
               ("cost_price", "5"); ("sell_price", "6")].

Definition example_number_sequence : raw :=
  list_to_map [("ID", "n1"); ("name", "stocktake_serial_number_for_store_store2");
               ("value", "7")].

(** ** Outcomes *)

(** What holds of the result and of the database a call leaves, when the
    call returns. *)
Definition returning {A} (r : result (A * store)) (P : A → store → Prop) : Prop :=
  match r with
  | Ok (a, db') => P a db'
  | Throw _ => True
  end.

(** No object is lost from [db] to [db']. *)
Definition keeps (db db' : store) : Prop := ∀ k, is_Some (db !! k) → is_Some (db' !! k).

(** The values a placeholder gives to the fields that are not its key. *)
Definition placeholder_default (now : date) (v : value) : Prop :=
  v = VStr "placeholder" ∨ v = VNum 0 ∨ v = VBool false ∨ v = VDate now.

(** The relations of the object made from a record: the field of the object,
    the type of the related object, and the field of the record that holds
    its primary key. *)
Definition relations (type : recordType) : list (string * recordType * string) :=
  match type with
  | Item => [("category", ItemCategory, "category_ID");
             ("department", ItemDepartment, "department_ID")]
  | ItemBatch => [("item", Item, "item_ID"); ("supplier", Name, "name_ID")]
  | MasterListNameJoin =>
      [("name", Name, "name_ID"); ("masterList", MasterList, "list_master_ID")]
  | MasterListItem =>
      [("item", Item, "item_ID"); ("masterList", MasterList, "item_master_ID")]
  | Requisition => [("user", User, "user_ID")]
  | RequisitionItem =>
      [("requisition", Requisition, "requisition_ID"); ("item", Item, "item_ID")]
  | Stocktake =>
      [("createdBy", User, "created_by_ID"); ("finalisedBy", User, "finalised_by_ID");
       ("additions", Transaction, "invad_additions_ID");
       ("reductions", Transaction, "invad_reductions_ID")]
  | StocktakeBatch =>
      [("stocktake", Stocktake, "stock_take_ID"); ("itemBatch", ItemBatch, "item_line_ID")]
  | Transaction =>
      [("otherParty", Name, "name_ID"); ("enteredBy", User, "user_ID");
       ("category", TransactionCategory, "category_ID")]
  | TransactionBatch =>
      [("itemBatch", ItemBatch, "item_line_ID"); ("transaction", Transaction, "transaction_ID")]
  | _ => []
  end.

(** The relation [f] of [o] is resolved in [db]: it holds the object of
    type [t] that the record names in [rf], and that object is in [db]; it
    holds null when the record names none. *)
Definition resolved (record : raw) (db : store) (o : obj)
    (r : string * recordType * string) : Prop :=
  let '(f, t, rf) := r in
  o !! f = Some (ref (handle t (record !! rf)))
  ∧ ∀ k, handle t (record !! rf) = Some k → is_Some (db !! k).

(** For the store joins: the type of the object a join makes visible, and
    the field of the record that holds its primary key. *)
Definition join_target (type : recordType) : option (recordType * string) :=
  match type with
  | ItemStoreJoin => Some (Item, "item_ID")
  | NameStoreJoin => Some (Name, "name_ID")
  | _ => None
  end.

(** The fields of a Name record that make its billing address. *)
Definition address_lines : list string :=
  ["bill_address1"; "bill_address2"; "bill_address3"; "bill_address4";
   "bill_postal_zip_code"].

(** Sync and record type codes, to run the entry point on examples. *)
Definition example_entry_translators : entryTranslators := {|
  SYNC_TYPES := λ s,
    if String.eqb s "I" then Some CREATE
    else if String.eqb s "U" then Some UPDATE
    else if String.eqb s "D" then Some DELETE
    else None;
  RECORD_TYPES := λ s,
    if String.eqb s "item" then Item
    else if String.eqb s "item_line" then ItemBatch
    else if String.eqb s "name" then Name
    else OtherType;
|}.

Definition example_item : raw :=
  list_to_map [("ID", "i1"); ("code", "AMX"); ("item_name", "Amoxicillin");
               ("default_pack_size", "10")].

Definition example_name (id name : string) : raw :=
  list_to_map [("ID", id); ("name", name); ("code", "c"); ("type", "facility");
               ("customer", "true"); ("supplier", "false"); ("manufacturer", "false");
               ("bill_address1", "1 High St"); ("bill_postal_zip_code", "6011")].

Definition example_item_store_join : raw :=
  list_to_map [("ID", "j1"); ("item_ID", "i1"); ("store_ID", "store1");
               ("inactive", "true")].

Definition example_master_list_item : raw :=
  list_to_map [("ID", "m1"); ("item_ID", "i1")].

Definition example_master_list_name_join : raw :=
  list_to_map [("ID", "mj1"); ("name_ID", "n1"); ("list_master_ID", "l1")].

Definition example_transaction_batch : raw :=
  list_to_map [("ID", "tb1"); ("item_ID", "i1"); ("item_name", "Amoxicillin");
               ("item_line_ID", "b1"); ("batch", "B17");
               ("expiry_date", "2020-01-01T00:00:00"); ("pack_size", "3");
               ("quantity", "4"); ("transaction_ID", "t1");
               ("cost_price", "5"); ("sell_price", "6")].

Definition example_number_to_reuse : raw :=
  list_to_map [("ID", "r1"); ("name", "stocktake_serial_number_for_store_store1");
               ("number_to_use", "5")].

(** * Properties *)

(** ** Truthiness and the parsers *)

Lemma truthy_js_and (a b : value) : truthy (a &&& b) = truthy a && truthy b.
Proof. unfold js_and. by destruct (truthy a) eqn:Ha. Qed.

Lemma truthy_of_raw (o : option string) : truthy (of_raw o) = true ↔ nonempty o.
Proof.
  unfold nonempty. destruct o as [s|]; simpl.
  - destruct (String.eqb_spec s ""); simpl; split; try done.
    + by intros (s' & [= <-] & ?).
    + eauto.
  - split; [done | by intros (? & ? & ?)].
Qed.

Lemma truthy_fld (record : raw) (f : string) :
  truthy (fld record f) = true ↔ nonempty (record !! f).
Proof. apply truthy_of_raw. Qed.

Lemma parseNumber_nonempty (parseFloat : string → float) (s : string) :
  s ≠ "" → parseNumber parseFloat (Some s) = VNum (parseFloat s).
Proof.
  intros Hs. unfold parseNumber. simpl.
  destruct (String.eqb_spec s ""); [done|]. by destruct s.
Qed.

Lemma indexOf_trueStrings (s : string) :
  (0 <=? indexOf trueStrings (Some s))%Z = true ↔ s ∈ trueStrings.
Proof.
  unfold trueStrings, indexOf, indexOf_from.
  destruct (String.eqb_spec "true" s) as [<-|?]; [split; [set_solver|done]|].
  destruct (String.eqb_spec "True" s) as [<-|?]; [split; [set_solver|done]|].
  destruct (String.eqb_spec "TRUE" s) as [<-|?]; [split; [set_solver|done]|].
  split; [done|]. set_solver.
Qed.

(** C7, as the code has it: [parseBoolean] answers [true] exactly on the
    three spellings "true", "True" and "TRUE" of its list, [false] on any
    other string that is not empty, and a falsy value when the input is
    missing or empty. *)
Theorem parseBoolean_true_iff_listed (s : string) :
  (parseBoolean (Some s) = VBool true ↔ s ∈ trueStrings)
  ∧ (s ≠ "" → s ∉ trueStrings → parseBoolean (Some s) = VBool false)
  ∧ truthy (parseBoolean None) = false
  ∧ truthy (parseBoolean (Some "")) = false.
Proof.
  split; [|split; [|done]].
  - unfold parseBoolean, js_and. simpl of_raw. simpl truthy.
    destruct (String.eqb_spec s "") as [->|Hs]; simpl negb; cbv iota.
    + split; [done|]. unfold trueStrings. set_solver.
    + rewrite <- indexOf_trueStrings.
      destruct ((0 <=? indexOf trueStrings (Some s))%Z); split; congruence.
  - intros Hs Hn. unfold parseBoolean, js_and. simpl of_raw. simpl truthy.
    destruct (String.eqb_spec s ""); [done|]. simpl negb. cbv iota.
    destruct ((0 <=? indexOf trueStrings (Some s))%Z) eqn:Hi; [|done].
    by apply indexOf_trueStrings in Hi.
Qed.

Lemma parseBoolean_true_iff_listed_witness :
  "yes" ≠ "" ∧ ("yes" ∉ trueStrings) ∧ parseBoolean (Some "yes") = VBool false.
Proof.
  assert ("yes" ≠ "") as H1 by done.
  assert ("yes" ∉ trueStrings) as H2 by (unfold trueStrings; set_solver).
  split; [done|]. split; [done|].
  exact (proj1 (proj2 (parseBoolean_true_iff_listed "yes")) H1 H2).
Defined.

(** C7 as stated fails: "tRUE" equals "true" up to case, and [parseBoolean]
    answers [false] on it. *)
Lemma parseBoolean_case_counterexample :
  equal_ignoring_case "tRUE" "true" ∧ parseBoolean (Some "tRUE") = VBool false.
Proof. split; reflexivity. Qed.

(** ** The sanity check *)

Lemma sanity_ID (type : recordType) (record : raw) :
  truthy (sanityCheckIncomingRecord type record) = true → nonempty (record !! "ID").
Proof.
  unfold sanityCheckIncomingRecord.
  destruct (truthy (fld record "ID")) eqn:Hid; simpl; [|done].
  intros _. by apply truthy_fld.
Qed.

Lemma length_lt_1_truthy (v : value) : truthy v = true → length_lt v 1 = false.
Proof. destruct v as [| | | |s| | |]; try done. by destruct s. Qed.

Lemma typeof_string_fld (record : raw) (f : string) :
  typeof_string (fld record f) = true ↔ is_Some (record !! f).
Proof.
  unfold fld. destruct (record !! f); simpl; split; try done; try (by intros []); eauto.
Qed.

Lemma sanityCheck_accepts (type : recordType) (record : raw) :
  truthy (sanityCheckIncomingRecord type record) = true
  ↔ nonempty (record !! "ID") ∧ accepts type record.
Proof.
  unfold sanityCheckIncomingRecord.
  destruct (truthy (fld record "ID")) eqn:Hid; simpl.
  - rewrite (length_lt_1_truthy _ Hid). apply truthy_fld in Hid.
    unfold accepts.
    destruct type; simpl;
      rewrite ?truthy_js_and, ?andb_true_iff, ?Forall_cons, ?Forall_nil,
              ?truthy_fld, ?typeof_string_fld;
      generalize dependent nonempty; intros; intuition; done.
  - split; [done|]. intros [Hn _]. apply truthy_fld in Hn. congruence.
Qed.

(** C9: the sanity check accepts a record of ItemCategory, ItemDepartment
    or MasterList as soon as the identifier is not empty and the descriptive
    field is a string, the empty string included; a record of any other
    supported type is accepted exactly when the identifier and every
    required field are there and not empty. *)
Theorem sanityCheck_empty_string_asymmetry (type : recordType) (record : raw) :
  (truthy (sanityCheckIncomingRecord type record) = true
   ↔ nonempty (record !! "ID") ∧ accepts type record)
  ∧ match descriptive_field type with
    | Some d =>
        ∀ i, i ≠ "" →
          truthy (sanityCheckIncomingRecord type (<[d := ""]> (<["ID" := i]> record))) = true
    | None =>
        supported type = true →
        ∃ fs, required_fields type = Some fs
              ∧ ∀ f, f ∈ fs → ¬ nonempty (record !! f) →
                  truthy (sanityCheckIncomingRecord type record) = false
    end.
Proof.
  split; [apply sanityCheck_accepts|].
  destruct (descriptive_field type) as [d|] eqn:Hd.
  - intros i Hi. apply sanityCheck_accepts. split.
    + exists i. split; [|done].
      destruct type; simplify_eq/=; by rewrite lookup_insert_ne, lookup_insert_eq.
    + unfold accepts. rewrite Hd. rewrite lookup_insert_eq. eauto.
  - intros Hsup.
    assert (∃ fs, required_fields type = Some fs) as [fs Hfs].
    { destruct type; simplify_eq/=; eauto. }
    exists fs. split; [done|]. intros f Hf Hn.
    apply not_true_is_false. rewrite sanityCheck_accepts. intros [_ Ha].
    unfold accepts in Ha. rewrite Hd, Hfs in Ha.
    rewrite Forall_forall in Ha. by apply Hn, Ha.
Qed.

Lemma sanityCheck_empty_string_asymmetry_witness :
  truthy (sanityCheckIncomingRecord ItemCategory
            (list_to_map [("ID", "c1"); ("Description", "")])) = true
  ∧ truthy (sanityCheckIncomingRecord TransactionCategory
              (list_to_map [("ID", "c1"); ("category", ""); ("code", "x"); ("type", "y")]))
    = false.
Proof.
  split.
  - apply (proj1 (sanityCheck_empty_string_asymmetry ItemCategory
                    (list_to_map [("ID", "c1"); ("Description", "")]))).
    split; [by exists "c1" | by exists ""].
  - destruct (proj2 (sanityCheck_empty_string_asymmetry TransactionCategory
                       (list_to_map [("ID", "c1"); ("category", ""); ("code", "x"); ("type", "y")]))
                eq_refl) as (fs & [= <-] & Hfs).
    apply (Hfs "category"); [set_solver|].
    intros (s & [= <-] & Hs). done.
Defined.

(** ** The reading of a query *)

Lemma first_None (R : store) : first R = None ↔ R = ∅.
Proof.
  unfold first. rewrite head_None, elements_empty_iff.
  split; [apply dom_empty_inv | intros ->; by rewrite dom_empty].
Qed.

Lemma first_Some (R : store) (k : key) : first R = Some k → is_Some (R !! k).
Proof.
  unfold first. intros Hk. apply elem_of_dom, elem_of_elements.
  by apply head_Some_elem_of.
Qed.

Lemma first_same_dom (R1 R2 : store) : dom R1 = dom R2 → first R1 = first R2.
Proof. unfold first. by intros ->. Qed.

Lemma first_singleton (k : key) (o : obj) : first ({[k := o]} : store) = Some k.
Proof. unfold first. by rewrite dom_singleton_L, elements_singleton. Qed.

Lemma first_only (R : store) (k : key) :
  (∀ j, is_Some (R !! j) ↔ j = k) → first R = Some k.
Proof.
  intros HR. destruct (HR k) as [_ [o Ho]]; [done|].
  rewrite <- (first_singleton k o). apply first_same_dom.
  apply set_eq; intros j. rewrite !elem_of_dom, HR, lookup_singleton_is_Some. done.
Qed.

Lemma first_same_support (R1 R2 : store) :
  (∀ j, is_Some (R1 !! j) ↔ is_Some (R2 !! j)) → first R1 = first R2.
Proof.
  intros HR. apply first_same_dom, set_eq; intros j. by rewrite !elem_of_dom.
Qed.

Lemma lookup_filtered (f v : string) (R : store) (k : key) :
  filtered f v R !! k =
  match R !! k with
  | Some o => if prop_is f v (k, o) then Some o else None
  | None => None
  end.
Proof.
  apply option_eq; intros o'. unfold filtered.
  rewrite map_lookup_filter_Some.
  destruct (R !! k) as [o|]; [|naive_solver].
  destruct (prop_is f v (k, o)) eqn:Hp; [naive_solver|].
  split; [|done]. intros [[= <-] Hq]. by rewrite Hp in Hq.
Qed.

Lemma lookup_objects (type : recordType) (db : store) (k : key) :
  objects type db !! k = if decide (k.1 = type) then db !! k else None.
Proof.
  apply option_eq; intros o'. unfold objects.
  rewrite map_lookup_filter_Some. simpl. case_decide; naive_solver.
Qed.

Lemma lookup_query (type : recordType) (f v : string) (db : store) (k : key) :
  query type f v db !! k =
  if decide (k.1 = type)
  then match db !! k with
       | Some o => if prop_is f v (k, o) then Some o else None
       | None => None
       end
  else None.
Proof. unfold query. rewrite lookup_filtered, lookup_objects. by case_decide. Qed.

Lemma query_by_id (type : recordType) (pk : string) (db : store) :
  query type "id" pk db =
  match db !! (type, pk) with Some o => {[(type, pk) := o]} | None => ∅ end.
Proof.
  apply map_eq; intros k. rewrite lookup_query.
  destruct (decide (k = (type, pk))) as [->|Hne].
  - rewrite decide_True by done.
    destruct (db !! (type, pk)) as [o|]; [|by rewrite lookup_empty].
    rewrite lookup_singleton_eq. unfold prop_is; simpl.
    by rewrite bool_decide_eq_true_2.
  - assert (match db !! (type, pk) with Some o => {[(type, pk) := o]} | None => ∅ end !! k
            = (None : option obj)) as ->.
    { destruct (db !! (type, pk)); [by rewrite lookup_singleton_ne | by rewrite lookup_empty]. }
    case_decide; [|done]. destruct (db !! k) as [o|]; [|done].
    unfold prop_is; simpl. rewrite bool_decide_eq_false_2; [done|].
    intros ?. apply Hne. destruct k; simpl in *; congruence.
Qed.

Lemma first_query_by_id (type : recordType) (pk : string) (db : store) :
  first (query type "id" pk db) =
  match db !! (type, pk) with Some _ => Some (type, pk) | None => None end.
Proof.
  rewrite query_by_id. destruct (db !! (type, pk)).
  - apply first_singleton.
  - by apply first_None.
Qed.

(** ** Fresh identifiers *)

Lemma generateUUID_fresh (db : store) (type : recordType) :
  db !! (type, fresh (ids db)) = None.
Proof.
  destruct (db !! (type, fresh (ids db))) as [o|] eqn:Ho; [|done].
  exfalso. apply (is_fresh (ids db)). unfold ids at 2.
  apply elem_of_map. exists (type, fresh (ids db)). split; [done|].
  apply elem_of_dom. eauto.
Qed.

(** ** Placeholders *)

Lemma has_template_spec (now : date) (type : recordType) (pk : string) (db : store) :
  if has_template type
  then ∃ o db', generatePlaceholder now type pk db = Ok (o, db')
  else generatePlaceholder now type pk db = Throw "Unsupported database object type.".
Proof. destruct type; simpl; eauto. Qed.

Lemma template_is_Some (now : date) (type : recordType) (pk : string) :
  is_Some (template now type pk) ↔ has_template type = true ∧ type ≠ NumberSequence.
Proof.
  unfold template. destruct type; simpl; split; try done;
    try (by intros [o Ho]); try (by intros [? ?]); eauto.
Qed.

Lemma generatePlaceholder_template (now : date) (type : recordType) (pk : string)
    (o : obj) (db : store) :
  template now type pk = Some o →
  generatePlaceholder now type pk db = Ok (o, db) ∧ o !! "id" = Some (VStr pk).
Proof.
  unfold template. destruct type; simpl; try done; intros [= <-]; done.
Qed.

(** ** The reference resolver on primary keys *)

Lemma getObject_null (now : date) (type : recordType) (f : string) (db : store) :
  getObject now type None f db = Ok (None, db)
  ∧ getObject now type (Some "") f db = Ok (None, db).
Proof. done. Qed.

Lemma getObject_handle_None (now : date) (type : recordType) (primaryKey : option string)
    (f : string) (db : store) :
  handle type primaryKey = None → getObject now type primaryKey f db = Ok (None, db).
Proof.
  unfold handle. destruct primaryKey as [pk|]; [|done].
  by destruct (String.eqb_spec pk "") as [->|].
Qed.

Lemma getObject_query (now : date) (type : recordType) (pk f : string) (db : store) :
  pk ≠ "" →
  getObject now type (Some pk) f db =
  match first (query type f pk db) with
  | Some k => Ok (Some k, db)
  | None =>
      match generatePlaceholder now type pk db with
      | Ok (o, db') =>
          match db_create type o db' with
          | Ok (k, db'') => Ok (Some k, db'')
          | Throw e => Throw e
          end
      | Throw e => Throw e
      end
  end.
Proof.
  intros Hpk. unfold getObject. simpl.
  destruct (String.eqb_spec pk "") as [->|_]; [done|].
  assert (Nat.ltb (String.length pk) 1 = false) as -> by (by destruct pk).
  simpl. unfold bind, gets. fold (query type f pk db).
  destruct (first (query type f pk db)); [done|].
  destruct (generatePlaceholder now type pk db) as [[o db']|]; [|done].
  by destruct (db_create type o db') as [[k db'']|].
Qed.

Lemma getObject_by_id (now : date) (type : recordType) (primaryKey : option string)
    (db : store) :
  is_Some (template now type "") →
  getObject now type primaryKey "id" db
  = Ok (handle type primaryKey, ensure now type primaryKey db).
Proof.
  intros Ht. unfold ensure.
  destruct (handle type primaryKey) as [k|] eqn:Hh;
    [|by apply getObject_handle_None].
  unfold handle in Hh. destruct primaryKey as [pk|]; [|done].
  destruct (String.eqb_spec pk "") as [->|Hpk]; simplify_eq.
  rewrite getObject_query, first_query_by_id by done.
  destruct (db !! (type, pk)) as [o|] eqn:Hdb; [done|].
  assert (is_Some (template now type pk)) as [o Ho].
  { apply template_is_Some. by apply template_is_Some in Ht. }
  cbn [snd]. rewrite Ho.
  destruct (generatePlaceholder_template now type pk o db Ho) as [-> Hid].
  unfold db_create. by rewrite Hid, Hdb.
Qed.

Lemma getObject_untemplated (now : date) (type : recordType) (pk : string) (db : store) :
  pk ≠ "" → has_template type = false →
  getObject now type (Some pk) "id" db
  = match db !! (type, pk) with
    | Some _ => Ok (Some (type, pk), db)
    | None => Throw "Unsupported database object type."
    end.
Proof.
  intros Hpk Ht. rewrite getObject_query, first_query_by_id by done.
  destruct (db !! (type, pk)) as [o|] eqn:Hdb; [done|].
  pose proof (has_template_spec now type pk db) as Hs. rewrite Ht in Hs. by rewrite Hs.
Qed.

Lemma lookup_present_eq (o : obj) (k : key) (db : store) :
  present o k db !! k = Some (default o (db !! k)).
Proof.
  unfold present. destruct (db !! k) eqn:Hk; [by rewrite Hk | by rewrite lookup_insert_eq].
Qed.

Lemma lookup_present_ne (o : obj) (k j : key) (db : store) :
  k ≠ j → present o k db !! j = db !! j.
Proof.
  intros. unfold present. destruct (db !! k); [done | by rewrite lookup_insert_ne].
Qed.

Lemma handle_cases (type : recordType) (primaryKey : option string) :
  handle type primaryKey = None
  ∨ ∃ pk, pk ≠ "" ∧ primaryKey = Some pk ∧ handle type primaryKey = Some (type, pk).
Proof.
  destruct primaryKey as [pk|]; [|by left]. unfold handle.
  destruct (String.eqb_spec pk ""); [by left | right; eauto].
Qed.

Lemma handle_nonempty (type : recordType) (primaryKey : option string) :
  nonempty primaryKey →
  ∃ pk, pk ≠ "" ∧ primaryKey = Some pk ∧ handle type primaryKey = Some (type, pk).
Proof.
  intros (pk & -> & Hpk). exists pk. unfold handle.
  by destruct (String.eqb_spec pk "").
Qed.

Lemma ensure_None (now : date) (type : recordType) (primaryKey : option string) (db : store) :
  handle type primaryKey = None → ensure now type primaryKey db = db.
Proof. unfold ensure. by intros ->. Qed.

Lemma ensure_Some (now : date) (type : recordType) (primaryKey : option string)
    (k : key) (db : store) :
  handle type primaryKey = Some k →
  is_Some (template now type "") →
  ensure now type primaryKey db = present (tmpl now k) k db.
Proof.
  intros Hh Ht. unfold ensure, present, tmpl. rewrite Hh.
  assert (k.1 = type) as Hk.
  { unfold handle in Hh. destruct primaryKey; [|done]. by case_match; simplify_eq. }
  rewrite Hk.
  assert (is_Some (template now type k.2)) as [o ->]; [|done].
  apply template_is_Some. by apply template_is_Some in Ht.
Qed.

(** ** Deletion *)

Lemma getObject_absent (now : date) (type : recordType) (pk : string) (db : store) :
  has_template type = true → pk ≠ "" → db !! (type, pk) = None →
  ∃ k o, getObject now type (Some pk) "id" db = Ok (Some k, <[k := o]> db)
         ∧ k.1 = type ∧ db !! k = None.
Proof.
  intros Ht Hpk Hdb. destruct (decide (type = NumberSequence)) as [->|Hns].
  - rewrite getObject_query, first_query_by_id, Hdb by done.
    simpl. unfold bind, gets, ret, db_create.
    assert (mkobj [("id", VStr (fresh (ids db))); ("sequenceKey", VStr pk)] !! "id"
            = Some (VStr (fresh (ids db)))) as -> by apply lookup_insert_eq.
    rewrite generateUUID_fresh.
    eexists _, _. split; [done|]. split; [done|]. apply generateUUID_fresh.
  - rewrite getObject_by_id by (by apply template_is_Some).
    assert (handle type (Some pk) = Some (type, pk)) as Hh.
    { unfold handle. by destruct (String.eqb_spec pk ""). }
    rewrite Hh, (ensure_Some _ _ _ _ _ Hh) by (by apply template_is_Some).
    unfold present. rewrite Hdb. by eexists _, _.
Qed.

(** C2, as the code has it: for a supported record type with a placeholder
    template, [deleteRecord] on an identifier the database does not hold
    resolves it through [getObject], which creates a placeholder, and then
    deletes that placeholder: no error is raised and the database is left as
    it was. *)
Theorem deleteRecord_absent_creates_then_deletes (now : date) (type : recordType)
    (recordId : string) (db : store) :
  supported type = true → has_template type = true →
  recordId ≠ "" → db !! (type, recordId) = None →
  (∃ k o, getObject now type (Some recordId) "id" db = Ok (Some k, <[k := o]> db)
          ∧ db !! k = None)
  ∧ deleteRecord now type (Some recordId) db = Ok (tt, db).
Proof.
  intros Hsup Ht Hid Hdb.
  destruct (getObject_absent now type recordId db Ht Hid Hdb) as (k & o & Hget & _ & Hk).
  split; [by eexists _, _|].
  assert (deleteRecord now type (Some recordId)
          = (let* recordToDelete := getObject now type (Some recordId) "id" in
             db_delete type recordToDelete)) as ->.
  { by destruct type. }
  unfold bind. rewrite Hget. simpl. unfold modify.
  by rewrite delete_insert_eq, delete_id.
Qed.

Lemma deleteRecord_absent_creates_then_deletes_witness :
  deleteRecord (WallClock 0) Transaction (Some "t1") ∅ = Ok (tt, ∅).
Proof.
  apply (deleteRecord_absent_creates_then_deletes (WallClock 0) Transaction "t1" ∅);
    done.
Defined.

(** C2 as stated fails: on an empty database [deleteRecord] throws for a
    RequisitionItem, and the lookup it performs for an Item leaves a
    placeholder behind it. *)
Lemma deleteRecord_absent_counterexample :
  deleteRecord (WallClock 0) RequisitionItem (Some "ri1") ∅
  = Throw "Unsupported database object type."
  ∧ getObject (WallClock 0) Item (Some "i1") "id" ∅
    = Ok (Some (Item, "i1"),
          {[(Item, "i1") := mkobj [("id", VStr "i1");
                                   ("code", VStr "placeholder");
                                   ("name", VStr "placeholder");
                                   ("defaultPackSize", VNum 0)]]}).
Proof. split; by vm_compute. Qed.

(** ** Placeholder construction *)

(** C3 fails on the code: the dispatcher resolves the Requisition of a
    RequisitionItem through [getObject], and [generatePlaceholder] has no
    template for Requisition, so that integrating a RequisitionItem whose
    Requisition is not in the database yet throws. *)
Theorem generatePlaceholder_Requisition_throws (parseFloat : string → float)
    (now : date) (T : translators) (settings : Settings) (record : raw)
    (requisitionId : string) (db : store) :
  truthy (sanityCheckIncomingRecord RequisitionItem record) = true →
  record !! "requisition_ID" = Some requisitionId →
  db !! (Requisition, requisitionId) = None →
  generatePlaceholder now Requisition requisitionId db
  = Throw "Unsupported database object type."
  ∧ createOrUpdateRecord parseFloat now T settings RequisitionItem record db
    = Throw "Unsupported database object type.".
Proof.
  intros Hs Hr Hdb. split; [done|].
  assert (requisitionId ≠ "") as Hne.
  { apply sanityCheck_accepts in Hs as [_ Ha]. unfold accepts in Ha. simpl in Ha.
    apply Forall_cons in Ha as [(s & Hs1 & Hs2) _]. congruence. }
  unfold createOrUpdateRecord. rewrite Hs. cbn [negb].
  unfold bind. cbv beta iota zeta. rewrite Hr.
  by rewrite getObject_untemplated, Hdb.
Qed.

Lemma generatePlaceholder_Requisition_throws_witness :
  createOrUpdateRecord parseFloat_digits (WallClock 0) example_translators
    example_settings RequisitionItem example_requisition_item ∅
  = Throw "Unsupported database object type.".
Proof.
  apply (generatePlaceholder_Requisition_throws parseFloat_digits (WallClock 0)
           example_translators example_settings example_requisition_item "r1" ∅);
    reflexivity.
Defined.

(** ** Addresses *)

Lemma lookup_filtered_if_string (f : string) (v : option string) (R : store) (k : key) :
  filtered_if_string f v R !! k =
  match R !! k with
  | Some o => if line_is f v (k, o) then Some o else None
  | None => None
  end.
Proof.
  unfold filtered_if_string, line_is. destruct v; [apply lookup_filtered|].
  by destruct (R !! k).
Qed.

Lemma lookup_address_query (line1 line2 line3 line4 zipCode : option string)
    (db : store) (k : key) :
  address_query line1 line2 line3 line4 zipCode db !! k =
  if decide (k.1 = Address)
  then match db !! k with
       | Some o =>
           if address_matches line1 line2 line3 line4 zipCode (k, o) then Some o else None
       | None => None
       end
  else None.
Proof.
  unfold address_query, address_matches.
  rewrite !lookup_filtered_if_string, lookup_objects.
  case_decide; [|done]. destruct (db !! k) as [o|]; [|done].
  destruct (line_is "line1" line1 (k, o)); [|done].
  destruct (line_is "line2" line2 (k, o)); [|done].
  destruct (line_is "line3" line3 (k, o)); [|done].
  destruct (line_is "line4" line4 (k, o)); [|done].
  by destruct (line_is "zipCode" zipCode (k, o)).
Qed.

Lemma lookup_new_address (uuid : string) (line1 line2 line3 line4 zipCode : option string)
    (f : string) :
  new_address uuid line1 line2 line3 line4 zipCode !! f
  = supplied_field uuid line1 line2 line3 line4 zipCode f.
Proof.
  unfold new_address, set_if_string, supplied_field, mkobj. simpl list_to_map.
  destruct line1, line2, line3, line4, zipCode;
    repeat case_decide; simplify_map_eq; done.
Qed.

Lemma address_matches_new (type : recordType) (uuid : string)
    (line1 line2 line3 line4 zipCode : option string) :
  address_matches line1 line2 line3 line4 zipCode
    ((type, uuid), new_address uuid line1 line2 line3 line4 zipCode) = true.
Proof.
  unfold address_matches, line_is, prop_is. cbn [snd].
  rewrite !lookup_new_address. unfold supplied_field.
  destruct line1, line2, line3, line4, zipCode; simpl;
    rewrite ?bool_decide_eq_true_2; done.
Qed.

Lemma getOrCreateAddress_eq (line1 line2 line3 line4 zipCode : option string)
    (db : store) :
  getOrCreateAddress line1 line2 line3 line4 zipCode db =
  match first (address_query line1 line2 line3 line4 zipCode db) with
  | Some k => Ok (k, db)
  | None =>
      Ok ((Address, fresh (ids db)),
          <[(Address, fresh (ids db)) :=
              new_address (fresh (ids db)) line1 line2 line3 line4 zipCode]> db)
  end.
Proof.
  unfold getOrCreateAddress, bind, gets. cbv beta iota zeta.
  fold (address_query line1 line2 line3 line4 zipCode db).
  destruct (first (address_query line1 line2 line3 line4 zipCode db)); [done|].
  unfold generateUUID, gets.
  fold (new_address (fresh (ids db)) line1 line2 line3 line4 zipCode).
  unfold db_create. rewrite lookup_new_address. unfold supplied_field.
  rewrite decide_True by done. by rewrite generateUUID_fresh.
Qed.

Lemma getOrCreateAddress_found (line1 line2 line3 line4 zipCode : option string)
    (db : store) (k : key) :
  first (address_query line1 line2 line3 line4 zipCode db) = Some k →
  getOrCreateAddress line1 line2 line3 line4 zipCode db = Ok (k, db)
  ∧ k.1 = Address
  ∧ ∃ o, db !! k = Some o
         ∧ address_matches line1 line2 line3 line4 zipCode (k, o) = true.
Proof.
  intros Hk. rewrite getOrCreateAddress_eq, Hk. split; [done|].
  apply first_Some in Hk as [o Ho]. rewrite lookup_address_query in Ho.
  case_decide; [|done]. split; [done|].
  destruct (db !! k) as [o'|]; [|done]. exists o'. split; [done|].
  by destruct (address_matches line1 line2 line3 line4 zipCode (k, o')).
Qed.

Lemma address_query_empty (line1 line2 line3 line4 zipCode : option string) (db : store) :
  address_query line1 line2 line3 line4 zipCode db = ∅
  ↔ ∀ k o, db !! k = Some o → k.1 = Address →
           address_matches line1 line2 line3 line4 zipCode (k, o) = false.
Proof.
  split.
  - intros He k o Hk Hty.
    assert (address_query line1 line2 line3 line4 zipCode db !! k = None) as Hq
      by (by rewrite He).
    rewrite lookup_address_query, decide_True, Hk in Hq by done.
    by destruct (address_matches line1 line2 line3 line4 zipCode (k, o)).
  - intros Hno. apply map_eq; intros k. rewrite lookup_empty, lookup_address_query.
    case_decide; [|done]. destruct (db !! k) as [o|] eqn:Hk; [|done].
    by rewrite (Hno k o).
Qed.

Lemma getOrCreateAddress_created (line1 line2 line3 line4 zipCode : option string)
    (db : store) :
  (∀ k o, db !! k = Some o → k.1 = Address →
          address_matches line1 line2 line3 line4 zipCode (k, o) = false) →
  ∃ uuid o,
    getOrCreateAddress line1 line2 line3 line4 zipCode db
    = Ok ((Address, uuid), <[(Address, uuid) := o]> db)
    ∧ (∀ type, db !! (type, uuid) = None)
    ∧ ∀ f, o !! f = supplied_field uuid line1 line2 line3 line4 zipCode f.
Proof.
  intros Hno. apply address_query_empty, first_None in Hno.
  rewrite getOrCreateAddress_eq, Hno. eexists _, _. split; [done|].
  split; [intros; apply generateUUID_fresh | apply lookup_new_address].
Qed.

(** A second call with the same lines answers the address of the first
    call, whatever happened meanwhile to the objects that are not
    addresses. *)
Lemma getOrCreateAddress_again
    (line1 line2 line3 line4 zipCode : option string) (db db' db'' : store) (k : key) :
  getOrCreateAddress line1 line2 line3 line4 zipCode db = Ok (k, db') →
  (∀ j, j.1 = Address → db'' !! j = db' !! j) →
  getOrCreateAddress line1 line2 line3 line4 zipCode db'' = Ok (k, db'').
Proof.
  intros Hget Hsame. rewrite getOrCreateAddress_eq in Hget.
  rewrite getOrCreateAddress_eq.
  destruct (first (address_query line1 line2 line3 line4 zipCode db)) as [k0|] eqn:Hf.
  - simplify_eq.
    assert (address_query line1 line2 line3 line4 zipCode db''
            = address_query line1 line2 line3 line4 zipCode db') as ->; [|by rewrite Hf].
    apply map_eq; intros j. rewrite !lookup_address_query.
    case_decide; [|done]. by rewrite Hsame.
  - simplify_eq. apply first_None in Hf.
    rewrite (first_only _ (Address, fresh (ids db))); [done|].
    intros j. rewrite lookup_address_query. case_decide as Hj.
    + rewrite (Hsame j Hj).
      destruct (decide (j = (Address, fresh (ids db)))) as [->|Hne].
      * rewrite lookup_insert_eq, address_matches_new. split; [done | eauto].
      * rewrite lookup_insert_ne by done. split; [|done].
        assert (address_query line1 line2 line3 line4 zipCode db !! j = None) as Hq
          by (by rewrite Hf).
        rewrite lookup_address_query, decide_True in Hq by done.
        rewrite Hq. by intros [].
    + split; [by intros [] | intros ->; done].
Qed.

(** C8: [getOrCreateAddress] answers the first address that carries every
    supplied line (lines that are not supplied are not looked at) and leaves
    the database alone; when no address does, it creates one under a fresh
    identifier, with that identifier and the supplied lines as its only
    fields.  Two calls with the same line1 and zip code and nothing else
    answer the same address; a further call with another zip code, when no
    address has it, creates a second address. *)
Theorem getOrCreateAddress_exact_match
    (line1 line2 line3 line4 zipCode : option string) (db : store) :
  (∀ k, first (address_query line1 line2 line3 line4 zipCode db) = Some k →
     getOrCreateAddress line1 line2 line3 line4 zipCode db = Ok (k, db)
     ∧ k.1 = Address
     ∧ ∃ o, db !! k = Some o
            ∧ address_matches line1 line2 line3 line4 zipCode (k, o) = true)
  ∧ ((∀ k o, db !! k = Some o → k.1 = Address →
        address_matches line1 line2 line3 line4 zipCode (k, o) = false) →
     ∃ uuid o,
       getOrCreateAddress line1 line2 line3 line4 zipCode db
       = Ok ((Address, uuid), <[(Address, uuid) := o]> db)
       ∧ (∀ type, db !! (type, uuid) = None)
       ∧ ∀ f, o !! f = supplied_field uuid line1 line2 line3 line4 zipCode f)
  ∧ (∀ l z, ∃ k db',
       getOrCreateAddress (Some l) None None None (Some z) db = Ok (k, db')
       ∧ getOrCreateAddress (Some l) None None None (Some z) db' = Ok (k, db'))
  ∧ (∀ l z z', z ≠ z' →
       (∀ k o, db !! k = Some o → k.1 = Address →
          address_matches (Some l) None None None (Some z') (k, o) = false) →
       ∃ k db' k' o',
         getOrCreateAddress (Some l) None None None (Some z) db = Ok (k, db')
         ∧ getOrCreateAddress (Some l) None None None (Some z') db'
           = Ok (k', <[k' := o']> db')
         ∧ db' !! k' = None ∧ k' ≠ k
         ∧ o' !! "line1" = Some (VStr l) ∧ o' !! "zipCode" = Some (VStr z')).
Proof.
  split; [intros k; apply getOrCreateAddress_found|].
  split; [apply getOrCreateAddress_created|].
  split.
  - intros l z.
    assert (∃ k db', getOrCreateAddress (Some l) None None None (Some z) db = Ok (k, db'))
      as (k & db' & Hget).
    { rewrite getOrCreateAddress_eq. case_match; eauto. }
    exists k, db'. split; [done|].
    by apply (getOrCreateAddress_again _ _ _ _ _ db db' db' k).
  - intros l z z' Hz Hno.
    assert (∃ k db', getOrCreateAddress (Some l) None None None (Some z) db = Ok (k, db')
                     ∧ is_Some (db' !! k)
                     ∧ ∀ j o, db' !! j = Some o → j.1 = Address →
                         address_matches (Some l) None None None (Some z') (j, o) = false)
      as (k & db' & Hget & Hk & Hno').
    { rewrite getOrCreateAddress_eq.
      destruct (first (address_query (Some l) None None None (Some z) db)) as [k|] eqn:Hf.
      - exists k, db. split; [done|]. split; [|done].
        apply first_Some in Hf as [o Ho]. rewrite lookup_address_query in Ho.
        case_decide; [|done]. destruct (db !! k); [eauto | done].
      - eexists _, _. split; [done|]. split; [by rewrite lookup_insert_eq|].
        intros j o Hj Hty.
        destruct (decide (j = (Address, fresh (ids db)))) as [->|Hne].
        + rewrite lookup_insert_eq in Hj. simplify_eq.
          unfold address_matches, line_is, prop_is. cbn [snd].
          rewrite !lookup_new_address. unfold supplied_field. simpl.
          rewrite (bool_decide_eq_false_2 (z = z')) by done.
          by rewrite andb_false_r.
        + rewrite lookup_insert_ne in Hj by done. by apply (Hno j o). }
    destruct (getOrCreateAddress_created (Some l) None None None (Some z') db' Hno')
      as (uuid & o' & Hget' & Hfresh & Ho').
    exists k, db', (Address, uuid), o'. split; [done|]. split; [done|].
    split; [apply Hfresh|]. split.
    + intros <-. rewrite Hfresh in Hk. by destruct Hk.
    + by rewrite !Ho'.
Qed.

Lemma getOrCreateAddress_exact_match_witness :
  getOrCreateAddress (Some "1 High St") None None None (Some "6011") example_address_db
  = Ok ((Address, "a1"), example_address_db)
  ∧ ∃ k db' k' o',
      getOrCreateAddress (Some "1 High St") None None None (Some "6011") ∅ = Ok (k, db')
      ∧ getOrCreateAddress (Some "1 High St") None None None (Some "6012") db'
        = Ok (k', <[k' := o']> db')
      ∧ db' !! k' = None ∧ k' ≠ k
      ∧ o' !! "line1" = Some (VStr "1 High St") ∧ o' !! "zipCode" = Some (VStr "6012").
Proof.
  split.
  - apply (proj1 (getOrCreateAddress_exact_match (Some "1 High St") None None None
                    (Some "6011") example_address_db) (Address, "a1")).
    by vm_compute.
  - apply (proj2 (proj2 (proj2 (getOrCreateAddress_exact_match None None None None None ∅)))
             "1 High St" "6011" "6012"); [done|].
    intros k o Hk. by rewrite lookup_empty in Hk.
Defined.

(** C10: with no line supplied at all [getOrCreateAddress] always answers
    an address of the database: the first address there is, leaving the
    database alone, and, when the database has no address, a new one whose
    only field is a fresh identifier. *)
Theorem getOrCreateAddress_no_fields (db : store) :
  (∃ k db', getOrCreateAddress None None None None None db = Ok (k, db')
            ∧ k.1 = Address ∧ is_Some (db' !! k))
  ∧ ((∃ k, k.1 = Address ∧ is_Some (db !! k)) →
     ∃ k, first (objects Address db) = Some k
          ∧ k.1 = Address ∧ is_Some (db !! k)
          ∧ getOrCreateAddress None None None None None db = Ok (k, db))
  ∧ ((∀ k, k.1 = Address → db !! k = None) →
     ∃ uuid, (∀ type, db !! (type, uuid) = None)
             ∧ getOrCreateAddress None None None None None db
               = Ok ((Address, uuid),
                     <[(Address, uuid) := mkobj [("id", VStr uuid)]]> db)).
Proof.
  assert (∀ k, first (objects Address db) = Some k →
               k.1 = Address ∧ is_Some (db !! k)) as Hfirst.
  { intros k [o Ho]%first_Some. rewrite lookup_objects in Ho.
    case_decide; [|done]. split; [done | eauto]. }
  rewrite getOrCreateAddress_eq.
  change (address_query None None None None None db) with (objects Address db).
  change (new_address (fresh (ids db)) None None None None None)
    with (mkobj [("id", VStr (fresh (ids db)))]).
  split; [|split].
  - destruct (first (objects Address db)) as [k|] eqn:Hf.
    + exists k, db. split; [done|]. by apply Hfirst.
    + eexists _, _. split; [done|]. split; [done|]. by rewrite lookup_insert_eq.
  - intros (k & Hty & [o Ho]).
    destruct (first (objects Address db)) as [k'|] eqn:Hf.
    + exists k'. split; [done|]. destruct (Hfirst k' eq_refl). done.
    + apply first_None in Hf.
      assert (objects Address db !! k = Some o) as Hk
        by (by rewrite lookup_objects, decide_True).
      by rewrite Hf in Hk.
  - intros Hnone.
    destruct (first (objects Address db)) as [k'|] eqn:Hf.
    + destruct (Hfirst k' eq_refl) as [Hty [o Ho]]. by rewrite Hnone in Ho.
    + exists (fresh (ids db)). split; [|done]. intros; apply generateUUID_fresh.
Qed.

Lemma getOrCreateAddress_no_fields_witness :
  (∃ k, first (objects Address example_address_db) = Some k
        ∧ k.1 = Address ∧ is_Some (example_address_db !! k)
        ∧ getOrCreateAddress None None None None None example_address_db
          = Ok (k, example_address_db))
  ∧ ∃ uuid, (∀ type, (∅ : store) !! (type, uuid) = None)
            ∧ getOrCreateAddress None None None None None ∅
              = Ok ((Address, uuid), <[(Address, uuid) := mkobj [("id", VStr uuid)]]> ∅).
Proof.
  split.
  - apply (proj1 (proj2 (getOrCreateAddress_no_fields example_address_db))).
    exists (Address, "a1"). split; [done|].
    unfold example_address_db. rewrite lookup_singleton_eq. eauto.
  - apply (proj2 (proj2 (getOrCreateAddress_no_fields ∅))).
    intros k _. apply lookup_empty.
Defined.

(** ** Objects and their collections *)

Lemma lookup_add_to (f g : string) (c : key) (o : obj) :
  add_to f c o !! g
  = if decide (f = g) then Some (VColl ({[c]} ∪ collection o f)) else o !! g.
Proof. unfold add_to. apply lookup_insert. Qed.

Lemma collection_insert_ne (f g : string) (v : value) (o : obj) :
  g ≠ f → collection (<[g := v]> o) f = collection o f.
Proof. intros. unfold collection. by rewrite lookup_insert_ne. Qed.

Lemma collection_add_to (f g : string) (c : key) (o : obj) :
  collection (add_to g c o) f
  = if decide (g = f) then {[c]} ∪ collection o g else collection o f.
Proof.
  unfold collection at 1. rewrite lookup_add_to. by case_decide; subst.
Qed.

Lemma add_to_idemp (f : string) (c : key) (o : obj) :
  add_to f c (add_to f c o) = add_to f c o.
Proof.
  unfold add_to at 1. rewrite collection_add_to, decide_True by done.
  unfold add_to. rewrite insert_insert_eq. do 2 f_equal. set_solver.
Qed.

Lemma db_update_mkobj (type : recordType) (i : string) (l : list (string * value))
    (db : store) :
  db_update type (mkobj (("id", VStr i) :: l)) db
  = Ok ((type, i), <[(type, i) := mkobj (("id", VStr i) :: l)]> db).
Proof.
  unfold db_update.
  assert (mkobj (("id", VStr i) :: l) !! "id" = Some (VStr i)) as ->
    by apply lookup_insert_eq.
  done.
Qed.

Arguments add_to : simpl never.
Arguments parseNumber : simpl never.
Arguments parseDate : simpl never.
Arguments parseBoolean : simpl never.
Arguments js_mul : simpl never.
Arguments js_div : simpl never.

(** Symbolic evaluation of the dispatcher.  The arms are run on an abstract
    database: every [getObject] by primary key is replaced by the object it
    answers ([handle]) and by the database it leaves ([ensure], [present]),
    and two databases are compared key by key. *)

Ltac solve_ne := solve [intros [=]; congruence | congruence | done].

(** Lookups through the stores of a run. *)
Ltac lk :=
  repeat first
    [ rewrite lookup_insert_eq
    | rewrite lookup_alter_eq
    | rewrite lookup_present_eq
    | rewrite lookup_insert_ne by solve_ne
    | rewrite lookup_alter_ne by solve_ne
    | rewrite lookup_present_ne by solve_ne ].

(** Decide the key under scrutiny against every key the goal stores to. *)
Ltac split_on k j :=
  lazymatch type of j with
  | (recordType * string)%type =>
      lazymatch goal with
      | H : k ≠ j |- _ => fail
      | _ => destruct (decide (k = j)) as [->|?]
      end
  end.

Ltac split_key k :=
  repeat match goal with
  | |- context [<[?j := _]> _] => split_on k j
  | |- context [alter _ ?j _] => split_on k j
  | |- context [present _ ?j _] => split_on k j
  end.

(** Settle which object each [getObject] of the goal answers: none for a
    missing key, the keyed object otherwise. *)
Ltac handles :=
  repeat match goal with
  | H : handle ?ty ?opk = _ |- context [handle ?ty ?opk] => rewrite H
  | Hn : nonempty ?opk |- context [handle ?ty ?opk] =>
      let H := fresh "Hh" in
      let pk := fresh "pk" in
      destruct (handle_nonempty ty opk Hn) as (pk & ? & ? & H)
  | H : handle ?ty ?opk = None |- context [ensure _ ?ty ?opk _] =>
      rewrite (ensure_None _ _ _ _ H)
  | H : handle ?ty ?opk = Some _ |- context [ensure _ ?ty ?opk _] =>
      rewrite (ensure_Some _ _ _ _ _ H) by (by eexists)
  | |- context [handle ?ty ?opk] =>
      let H := fresh "Hh" in
      let pk := fresh "pk" in
      destruct (handle_cases ty opk) as [H | (pk & ? & ? & H)]
  end.

(** One step of the symbolic run of the monadic code. *)
Ltac mstep :=
  first
    [ rewrite getObject_by_id by (by eexists)
    | rewrite db_update_mkobj
    | progress handles
    | progress (cbn [bind ret modify gets throw TypeError set_prop add_dependent
                       db_save get_prop ref negb]) ].

(** The branches of an arm: [joinsThisStore], a null sequence key. *)
Ltac mcase :=
  match goal with
  | |- context [bool_decide ?P] => destruct (bool_decide P)
  | |- context [truthy (of_raw ?o)] => destruct (truthy (of_raw o))
  end.

Ltac mrun := unfold bind; cbv beta iota zeta; repeat first [mstep | mcase].

(** Two objects with the same fields. *)
Ltac obj_eq :=
  try reflexivity;
  try (match goal with |- Some _ = Some _ => f_equal end);
  rewrite ?add_to_idemp, ?insert_insert_eq; try reflexivity;
  let g := fresh "g" in
  apply map_eq; intros g;
  repeat first
    [ rewrite lookup_add_to | rewrite lookup_insert
    | rewrite collection_add_to | rewrite collection_insert_ne by done ];
  repeat (case_decide; simplify_eq; try done);
  try (do 2 f_equal; set_solver).

(** Two keys of the same type may or may not be the same object. *)
Ltac split_same :=
  repeat match goal with
  | H1 : handle ?ty _ = Some (?ty, ?a), H2 : handle ?ty _ = Some (?ty, ?b) |- _ =>
      lazymatch a with b => fail | _ => idtac end;
      lazymatch goal with
      | _ : a ≠ b |- _ => fail
      | _ : b ≠ a |- _ => fail
      | _ => destruct (decide (a = b)) as [->|?]
      end
  end.

(** Two databases with the same objects. *)
Ltac store_eq_with tac :=
  let k := fresh "k" in
  apply map_eq; intros k; split_key k; lk; tac; try done;
  repeat match goal with |- context [_ <$> (?m !! ?j)] => destruct (m !! j) end;
  cbn [fmap option_fmap option_map default from_option id]; try done; obj_eq.

Ltac store_eq := store_eq_with idtac.

Lemma prop_is_add_to (f g v : string) (c k : key) (o : obj) :
  f ≠ g → prop_is f v (k, add_to g c o) = prop_is f v (k, o).
Proof.
  intros. unfold prop_is. case_decide; [done|]. cbn [snd].
  by rewrite lookup_add_to, decide_False.
Qed.

Lemma getObject_found (now : date) (type : recordType) (pk f : string) (db : store)
    (k : key) :
  pk ≠ "" → first (query type f pk db) = Some k →
  getObject now type (Some pk) f db = Ok (Some k, db).
Proof. intros Hpk Hf. by rewrite getObject_query, Hf. Qed.

Lemma getObject_sequenceKey (now : date) (s : string) (db : store) :
  s ≠ "" →
  ∃ k db', getObject now NumberSequence (Some s) "sequenceKey" db = Ok (Some k, db')
           ∧ first (query NumberSequence "sequenceKey" s db') = Some k.
Proof.
  intros Hs. rewrite getObject_query by done.
  destruct (first (query NumberSequence "sequenceKey" s db)) as [k|] eqn:Hf; [by eauto|].
  cbn [generatePlaceholder]. unfold bind, generateUUID, gets, ret, db_create.
  assert (mkobj [("id", VStr (fresh (ids db))); ("sequenceKey", VStr s)] !! "id"
          = Some (VStr (fresh (ids db)))) as -> by apply lookup_insert_eq.
  rewrite generateUUID_fresh. eexists _, _. split; [done|].
  apply first_only. intros j. rewrite lookup_query.
  apply first_None in Hf.
  destruct (decide (j = (NumberSequence, fresh (ids db)))) as [->|Hne].
  - rewrite decide_True, lookup_insert_eq by done. split; [done|]. intros _.
    unfold prop_is. cbn [snd]. rewrite decide_False by done.
    assert (mkobj [("id", VStr (fresh (ids db))); ("sequenceKey", VStr s)] !! "sequenceKey"
            = Some (VStr s)) as ->.
    { unfold mkobj. cbn [list_to_map foldr fst snd].
      by rewrite lookup_insert_ne, lookup_insert_eq. }
    rewrite bool_decide_eq_true_2 by done. eauto.
  - rewrite lookup_insert_ne by done. split; [|done].
    assert (query NumberSequence "sequenceKey" s db !! j = None) as Hq by (by rewrite Hf).
    rewrite lookup_query in Hq. rewrite Hq. by intros [].
Qed.

Lemma first_query_alter_insert (type : recordType) (f v : string) (g : obj → obj)
    (k x : key) (o : obj) (db : store) :
  x.1 ≠ type →
  (∀ o', prop_is f v (k, g o') = prop_is f v (k, o')) →
  first (query type f v (alter g k (<[x := o]> db))) = first (query type f v db).
Proof.
  intros Hx Hg. apply first_same_support; intros j. rewrite !lookup_query.
  case_decide as Hj; [|done].
  assert (j ≠ x) by (intros ->; done).
  destruct (decide (j = k)) as [->|Hne].
  - rewrite lookup_alter_eq, lookup_insert_ne by done.
    destruct (db !! k) as [o'|]; [|done]. cbn [fmap option_fmap option_map].
    rewrite Hg. destruct (prop_is f v (k, o')); [split; eauto | done].
  - by rewrite lookup_alter_ne, lookup_insert_ne.
Qed.

Lemma getOrCreateAddress_total (line1 line2 line3 line4 zipCode : option string) (db : store) :
  ∃ k db', getOrCreateAddress line1 line2 line3 line4 zipCode db = Ok (k, db')
           ∧ k.1 = Address.
Proof.
  rewrite getOrCreateAddress_eq.
  destruct (first (address_query line1 line2 line3 line4 zipCode db)) as [k|] eqn:Hf;
    [|by eauto].
  exists k, db. split; [done|].
  apply first_Some in Hf as [o Ho]. rewrite lookup_address_query in Ho. by case_decide.
Qed.

(** ** Applying a record twice *)

(** An arm, run twice: a record that fails the sanity check is skipped both
    times; otherwise both runs are evaluated and their databases compared. *)
Ltac start type :=
  intros now now' record db;
  unfold createOrUpdateRecord;
  destruct (truthy (sanityCheckIncomingRecord type record)) eqn:Hs;
  cbn [negb]; cbv beta iota zeta; [|done];
  let i := fresh "i" in
  destruct (sanity_ID _ _ Hs) as (i & Hi & Hne);
  unfold fld; rewrite Hi; cbn [of_raw].

Ltac finish :=
  repeat match goal with |- context [mkobj ?l] => generalize (mkobj l); intro end;
  unfold ret; split_same;
  try (apply (f_equal (λ s : store, Ok (tt, s))); store_eq).

Ltac arm type := start type; mrun; try done; finish.

Section idempotence.
Variable parseFloat : string → float.
Variable T : translators.
Variable settings : Settings.

Lemma idem_Item : ∀ now now' record db,
  (createOrUpdateRecord parseFloat now T settings Item record >>
   createOrUpdateRecord parseFloat now' T settings Item record) db
  = createOrUpdateRecord parseFloat now T settings Item record db.
Proof. arm Item. Qed.

Lemma idem_ItemCategory : ∀ now now' record db,
  (createOrUpdateRecord parseFloat now T settings ItemCategory record >>
   createOrUpdateRecord parseFloat now' T settings ItemCategory record) db
  = createOrUpdateRecord parseFloat now T settings ItemCategory record db.
Proof. arm ItemCategory. Qed.

Lemma idem_ItemDepartment : ∀ now now' record db,
  (createOrUpdateRecord parseFloat now T settings ItemDepartment record >>
   createOrUpdateRecord parseFloat now' T settings ItemDepartment record) db
  = createOrUpdateRecord parseFloat now T settings ItemDepartment record db.
Proof. arm ItemDepartment. Qed.

Lemma idem_ItemBatch : ∀ now now' record db,
  (createOrUpdateRecord parseFloat now T settings ItemBatch record >>
   createOrUpdateRecord parseFloat now' T settings ItemBatch record) db
  = createOrUpdateRecord parseFloat now T settings ItemBatch record db.
Proof. arm ItemBatch. Qed.

Lemma idem_ItemStoreJoin : ∀ now now' record db,
  (createOrUpdateRecord parseFloat now T settings ItemStoreJoin record >>
   createOrUpdateRecord parseFloat now' T settings ItemStoreJoin record) db
  = createOrUpdateRecord parseFloat now T settings ItemStoreJoin record db.
Proof. arm ItemStoreJoin. Qed.

Lemma idem_MasterListNameJoin : ∀ now now' record db,
  (createOrUpdateRecord parseFloat now T settings MasterListNameJoin record >>
   createOrUpdateRecord parseFloat now' T settings MasterListNameJoin record) db
  = createOrUpdateRecord parseFloat now T settings MasterListNameJoin record db.
Proof. arm MasterListNameJoin. Qed.

Lemma idem_MasterList : ∀ now now' record db,
  (createOrUpdateRecord parseFloat now T settings MasterList record >>
   createOrUpdateRecord parseFloat now' T settings MasterList record) db
  = createOrUpdateRecord parseFloat now T settings MasterList record db.
Proof. arm MasterList. Qed.

Lemma idem_MasterListItem : ∀ now now' record db,
  (createOrUpdateRecord parseFloat now T settings MasterListItem record >>
   createOrUpdateRecord parseFloat now' T settings MasterListItem record) db
  = createOrUpdateRecord parseFloat now T settings MasterListItem record db.
Proof. arm MasterListItem. Qed.

Lemma idem_NameStoreJoin : ∀ now now' record db,
  (createOrUpdateRecord parseFloat now T settings NameStoreJoin record >>
   createOrUpdateRecord parseFloat now' T settings NameStoreJoin record) db
  = createOrUpdateRecord parseFloat now T settings NameStoreJoin record db.
Proof. arm NameStoreJoin. Qed.

Lemma idem_NumberSequence : ∀ now now' record db,
  (createOrUpdateRecord parseFloat now T settings NumberSequence record >>
   createOrUpdateRecord parseFloat now' T settings NumberSequence record) db
  = createOrUpdateRecord parseFloat now T settings NumberSequence record db.
Proof. arm NumberSequence. Qed.

Lemma idem_Requisition : ∀ now now' record db,
  (createOrUpdateRecord parseFloat now T settings Requisition record >>
   createOrUpdateRecord parseFloat now' T settings Requisition record) db
  = createOrUpdateRecord parseFloat now T settings Requisition record db.
Proof. arm Requisition. Qed.

Lemma idem_Stocktake : ∀ now now' record db,
  (createOrUpdateRecord parseFloat now T settings Stocktake record >>
   createOrUpdateRecord parseFloat now' T settings Stocktake record) db
  = createOrUpdateRecord parseFloat now T settings Stocktake record db.
Proof. arm Stocktake. Qed.

Lemma idem_StocktakeBatch : ∀ now now' record db,
  (createOrUpdateRecord parseFloat now T settings StocktakeBatch record >>
   createOrUpdateRecord parseFloat now' T settings StocktakeBatch record) db
  = createOrUpdateRecord parseFloat now T settings StocktakeBatch record db.
Proof. arm StocktakeBatch. Qed.

Lemma idem_Transaction : ∀ now now' record db,
  (createOrUpdateRecord parseFloat now T settings Transaction record >>
   createOrUpdateRecord parseFloat now' T settings Transaction record) db
  = createOrUpdateRecord parseFloat now T settings Transaction record db.
Proof. arm Transaction. Qed.

Lemma idem_TransactionCategory : ∀ now now' record db,
  (createOrUpdateRecord parseFloat now T settings TransactionCategory record >>
   createOrUpdateRecord parseFloat now' T settings TransactionCategory record) db
  = createOrUpdateRecord parseFloat now T settings TransactionCategory record db.
Proof. arm TransactionCategory. Qed.

Lemma idem_TransactionBatch : ∀ now now' record db,
  (createOrUpdateRecord parseFloat now T settings TransactionBatch record >>
   createOrUpdateRecord parseFloat now' T settings TransactionBatch record) db
  = createOrUpdateRecord parseFloat now T settings TransactionBatch record db.
Proof. arm TransactionBatch. Qed.

Lemma idem_RequisitionItem : ∀ now now' record db,
  (createOrUpdateRecord parseFloat now T settings RequisitionItem record >>
   createOrUpdateRecord parseFloat now' T settings RequisitionItem record) db
  = createOrUpdateRecord parseFloat now T settings RequisitionItem record db.
Proof.
  start RequisitionItem. unfold bind. cbv beta iota zeta.
  destruct (handle_cases Requisition (record !! "requisition_ID"))
    as [Hreq | (rid & Hrid & Hr & _)].
  { by rewrite !getObject_handle_None. }
  rewrite Hr, getObject_untemplated by done.
  destruct (db !! (Requisition, rid)) as [req|] eqn:Hdb; [|done].
  cbn [get_prop gets]. rewrite Hdb.
  repeat mstep.
  all: rewrite getObject_untemplated by done.
  all: lk; rewrite Hdb; cbn [fmap option_fmap option_map get_prop gets].
  all: lk; rewrite Hdb; cbn [fmap option_fmap option_map].
  all: rewrite lookup_add_to, decide_False by done.
  all: repeat mstep.
  all: repeat match goal with |- context [mkobj ?l] => generalize (mkobj l); intro end.
  all: unfold ret; apply (f_equal (λ s : store, Ok (tt, s)));
    store_eq_with ltac:(rewrite ?Hdb).
Qed.

Lemma idem_NumberToReuse : ∀ now now' record db,
  (createOrUpdateRecord parseFloat now T settings NumberToReuse record >>
   createOrUpdateRecord parseFloat now' T settings NumberToReuse record) db
  = createOrUpdateRecord parseFloat now T settings NumberToReuse record db.
Proof.
  start NumberToReuse.
  destruct (truthy (of_raw (SEQUENCE_KEYS T (record !! "name") (get_THIS_STORE_ID settings))))
    eqn:Hsk; cbn [negb]; [|done].
  apply truthy_of_raw in Hsk as (s & -> & Hsne).
  unfold bind. cbv beta iota zeta.
  destruct (getObject_sequenceKey now s db Hsne) as (k & db1 & -> & Hf).
  assert (k.1 = NumberSequence) as Hk.
  { apply first_Some in Hf as [o Ho]. rewrite lookup_query in Ho. by case_decide. }
  destruct k as [kt kid]. cbn [fst] in Hk. subst kt.
  repeat mstep.
  rewrite (getObject_found now' NumberSequence s "sequenceKey" _ (NumberSequence, kid) Hsne).
  - repeat mstep.
    repeat match goal with |- context [mkobj ?l] => generalize (mkobj l); intro end.
    unfold ret; apply (f_equal (λ s : store, Ok (tt, s))); store_eq.
  - rewrite first_query_alter_insert; [done | done |].
    intros o'. by apply prop_is_add_to.
Qed.

Lemma idem_Name : ∀ now now' record db,
  (createOrUpdateRecord parseFloat now T settings Name record >>
   createOrUpdateRecord parseFloat now' T settings Name record) db
  = createOrUpdateRecord parseFloat now T settings Name record db.
Proof.
  start Name. unfold bind. cbv beta iota zeta.
  destruct (getOrCreateAddress_total (record !! "bill_address1") (record !! "bill_address2")
              (record !! "bill_address3") (record !! "bill_address4")
              (record !! "bill_postal_zip_code") db) as (k & db1 & Hget & Hk).
  rewrite Hget. repeat mstep.
  destruct k as [kt kid]. cbn [fst] in Hk. subst kt.
  rewrite (getOrCreateAddress_again _ _ _ _ _ db db1 _ (Address, kid) Hget).
  - repeat mstep.
    repeat match goal with |- context [mkobj ?l] => generalize (mkobj l); intro end.
    unfold ret; apply (f_equal (λ s : store, Ok (tt, s))); store_eq.
  - intros j Hj. rewrite lookup_insert_ne; [done|]. intros <-. done.
Qed.

Lemma createOrUpdateRecord_unsupported (now : date) (type : recordType) (record : raw)
    (db : store) :
  supported type = false →
  createOrUpdateRecord parseFloat now T settings type record db = Ok (tt, db).
Proof.
  intros Hsup. unfold createOrUpdateRecord.
  assert (truthy (sanityCheckIncomingRecord type record) = false) as ->.
  { unfold sanityCheckIncomingRecord.
    destruct type; try done; by destruct (negb _ || _). }
  by destruct type.
Qed.

(** C1: applying the same create/update record a second time (whatever the
    clock reads by then) leaves the database exactly as the first
    application left it. *)
Theorem createOrUpdateRecord_idempotent (now now' : date) (type : recordType)
    (record : raw) (db : store) :
  (createOrUpdateRecord parseFloat now T settings type record >>
   createOrUpdateRecord parseFloat now' T settings type record) db
  = createOrUpdateRecord parseFloat now T settings type record db
  ∧ ∀ db',
      createOrUpdateRecord parseFloat now T settings type record db = Ok (tt, db') →
      createOrUpdateRecord parseFloat now' T settings type record db' = Ok (tt, db').
Proof.
  assert ((createOrUpdateRecord parseFloat now T settings type record >>
           createOrUpdateRecord parseFloat now' T settings type record) db
          = createOrUpdateRecord parseFloat now T settings type record db) as Htwice.
  { destruct type.
    - unfold bind. by rewrite !createOrUpdateRecord_unsupported.
    - apply idem_Item.
    - apply idem_ItemBatch.
    - apply idem_ItemCategory.
    - apply idem_ItemDepartment.
    - apply idem_ItemStoreJoin.
    - apply idem_MasterList.
    - apply idem_MasterListItem.
    - apply idem_MasterListNameJoin.
    - apply idem_Name.
    - apply idem_NameStoreJoin.
    - apply idem_NumberSequence.
    - apply idem_NumberToReuse.
    - apply idem_Requisition.
    - apply idem_RequisitionItem.
    - apply idem_Stocktake.
    - apply idem_StocktakeBatch.
    - apply idem_Transaction.
    - apply idem_TransactionBatch.
    - apply idem_TransactionCategory.
    - unfold bind. by rewrite !createOrUpdateRecord_unsupported.
    - unfold bind. by rewrite !createOrUpdateRecord_unsupported. }
  split; [done|]. intros db' Hdb'. unfold bind in Htwice. by rewrite Hdb' in Htwice.
Qed.
End idempotence.

(** ** What an integrated record looks like *)

Lemma lookup_mkobj (l : list (string * value)) (f : string) :
  mkobj l !! f = assoc f l.
Proof.
  unfold mkobj. induction l as [|[g v] l IH]; [done|].
  cbn [list_to_map foldr assoc fst snd]. destruct (String.eqb_spec g f) as [->|Hne].
  - apply lookup_insert_eq.
  - by rewrite lookup_insert_ne.
Qed.

Lemma parseNumber_zero (parseFloat : string → float) (s : string) :
  PrimFloat.eqb (parseFloat s) 0 = true →
  truthy (parseNumber parseFloat (Some s)) = false.
Proof.
  intros Hz. destruct (decide (s = "")) as [->|Hs]; [done|].
  rewrite parseNumber_nonempty by done. cbn [truthy]. unfold truthy_num.
  by rewrite Hz.
Qed.

Lemma createOrUpdateRecord_rejected (parseFloat : string → float) (now : date)
    (T : translators) (settings : Settings) (type : recordType) (record : raw)
    (db : store) :
  truthy (sanityCheckIncomingRecord type record) = false →
  createOrUpdateRecord parseFloat now T settings type record db = Ok (tt, db).
Proof. intros Hs. unfold createOrUpdateRecord. by rewrite Hs. Qed.

(** The fields a record that passed the sanity check is known to carry. *)
Ltac sane Hs :=
  let Ha := fresh "Ha" in
  pose proof (proj2 (proj1 (sanityCheck_accepts _ _) Hs)) as Ha;
  unfold accepts in Ha; cbn [descriptive_field required_fields] in Ha;
  rewrite ?Forall_cons in Ha; destruct_and?.

Ltac start_sane Hs :=
  unfold createOrUpdateRecord; rewrite Hs; cbn [negb]; cbv beta iota zeta;
  sane Hs.

Section results.
Variable parseFloat : string → float.
Variable T : translators.
Variable settings : Settings.

(** Run an arm to its end, and read the object stored for the record. *)
Ltac returns_with Hi :=
  unfold fld; rewrite Hi; cbn [of_raw]; mrun;
  cbn [db_save ret]; unfold ret;
  eexists _, _; (split; [reflexivity|]); (split; [lk; reflexivity|]).

Ltac field :=
  rewrite lookup_mkobj; cbn [assoc String.eqb Ascii.eqb Bool.eqb];
  rewrite ?parseNumber_nonempty by done; try reflexivity.

(** C4: a record of ItemBatch, StocktakeBatch or TransactionBatch that
    passes the sanity check, with pack size [p] and quantity [q], is
    integrated without error, and the object stored under its identifier has
    [packSize] 1 and each of its pack counts equal to the product of the
    quantity and the pack size. *)
Theorem pack_size_normalization (now : date) (type : recordType) (record : raw)
    (db : store) (packSizeField quantityField : string) (packCounts : list string)
    (i p q : string) :
  batch_fields type = Some (packSizeField, quantityField, packCounts) →
  truthy (sanityCheckIncomingRecord type record) = true →
  record !! "ID" = Some i →
  record !! packSizeField = Some p →
  record !! quantityField = Some q →
  ∃ db' o,
    createOrUpdateRecord parseFloat now T settings type record db = Ok (tt, db')
    ∧ db' !! (type, i) = Some o
    ∧ o !! "packSize" = Some (VNum 1)
    ∧ Forall (λ f, o !! f = Some (VNum (PrimFloat.mul (parseFloat q) (parseFloat p))))
        packCounts.
Proof.
  intros Hb Hs Hi Hp Hq.
  assert (p ≠ "" ∧ q ≠ "") as [Hpne Hqne].
  { pose proof (proj2 (proj1 (sanityCheck_accepts _ _) Hs)) as Ha.
    unfold accepts in Ha.
    destruct type; simplify_eq/=; rewrite ?Forall_cons in Ha; destruct_and?;
      repeat match goal with
      | H : nonempty (record !! _) |- _ => destruct H as (? & ? & ?)
      end; split; congruence. }
  destruct type; simplify_eq/=; start_sane Hs;
    returns_with Hi; rewrite ?Hp, ?Hq;
    (split; [by field|]); repeat constructor; by field.
Qed.

(** C5: division by zero is guarded.  A RequisitionItem whose Requisition
    is in the database with [daysToSupply] zero is integrated without error
    with [dailyUsage] 0; an Item or batch record that passes the sanity
    check and whose pack size parses to zero is integrated without error
    with its price fields 0; and a record whose pack size is missing or
    empty does not pass the sanity check: it is skipped without error and
    nothing is stored for it, so that it gets no price at all. *)
Theorem division_guards (now : date) (record : raw) (db : store) (i : string) :
  record !! "ID" = Some i →
  (∀ requisitionId requisition d,
     truthy (sanityCheckIncomingRecord RequisitionItem record) = true →
     record !! "requisition_ID" = Some requisitionId →
     db !! (Requisition, requisitionId) = Some requisition →
     requisition !! "daysToSupply" = Some (VNum d) →
     PrimFloat.eqb d 0 = true →
     ∃ db' o,
       createOrUpdateRecord parseFloat now T settings RequisitionItem record db
       = Ok (tt, db')
       ∧ db' !! (RequisitionItem, i) = Some o
       ∧ o !! "dailyUsage" = Some (VNum 0))
  ∧ (∀ type packSizeField prices p,
       price_fields type = Some (packSizeField, prices) →
       truthy (sanityCheckIncomingRecord type record) = true →
       record !! packSizeField = Some p →
       PrimFloat.eqb (parseFloat p) 0 = true →
       ∃ db' o,
         createOrUpdateRecord parseFloat now T settings type record db = Ok (tt, db')
         ∧ db' !! (type, i) = Some o
         ∧ Forall (λ f, o !! f = Some (VNum 0)) prices)
  ∧ (∀ type packSizeField prices,
       price_fields type = Some (packSizeField, prices) →
       ¬ nonempty (record !! packSizeField) →
       createOrUpdateRecord parseFloat now T settings type record db = Ok (tt, db)).
Proof.
  intros Hi. split; [|split].
  - intros rid req d Hs Hr Hdb Hd Hz.
    assert (rid ≠ "") as Hrid.
    { pose proof (proj2 (proj1 (sanityCheck_accepts _ _) Hs)) as Ha.
      unfold accepts in Ha. simpl in Ha.
      apply Forall_cons in Ha as [(s & Hs1 & Hs2) _]. congruence. }
    start_sane Hs. unfold fld; rewrite Hi; cbn [of_raw].
    unfold bind. cbv beta iota zeta.
    rewrite Hr, getObject_untemplated, Hdb by done.
    cbn [get_prop gets]. rewrite Hdb, Hd. cbn [default from_option id truthy].
    assert (truthy_num d = false) as -> by (unfold truthy_num; by rewrite Hz).
    repeat mstep. cbn [db_save ret]. unfold ret.
    eexists _, _. split; [reflexivity|]. split; [lk; reflexivity|]. by field.
  - intros type psf prices p Hp Hs Hpack Hz.
    apply parseNumber_zero in Hz. rewrite <- Hpack in Hz.
    destruct type; simplify_eq/=; start_sane Hs;
      returns_with Hi; rewrite ?Hz;
      repeat constructor; by field.
  - intros type psf prices Hp Hn. apply createOrUpdateRecord_rejected.
    apply not_true_is_false. rewrite sanityCheck_accepts. intros [_ Ha].
    unfold accepts in Ha.
    destruct type; simplify_eq/=; rewrite ?Forall_cons in Ha; destruct_and?; done.
Qed.

(** C6: a NumberSequence or NumberToReuse record whose sequence name
    translates to null for this store leaves the database as it is, without
    error. *)
Theorem sequence_of_another_store (now : date) (type : recordType) (record : raw)
    (db : store) :
  type = NumberSequence ∨ type = NumberToReuse →
  SEQUENCE_KEYS T (record !! "name") (get_THIS_STORE_ID settings) = None →
  createOrUpdateRecord parseFloat now T settings type record db = Ok (tt, db).
Proof.
  intros Hty Hsk. unfold createOrUpdateRecord.
  destruct (truthy (sanityCheckIncomingRecord type record)); cbn [negb]; [|done].
  destruct Hty as [-> | ->]; cbv beta iota zeta; by rewrite Hsk.
Qed.

(** The record types whose integration cannot throw once the sanity check
    has passed: all but RequisitionItem (which needs its Requisition in the
    database) and MasterListItem (which needs a master list identifier). *)
Lemma createOrUpdateRecord_returns (now : date) (type : recordType) (record : raw)
    (db : store) :
  truthy (sanityCheckIncomingRecord type record) = true →
  type ≠ RequisitionItem → type ≠ MasterListItem →
  ∃ db', createOrUpdateRecord parseFloat now T settings type record db = Ok (tt, db').
Proof.
  intros Hs H1 H2.
  destruct (sanity_ID _ _ Hs) as (i & Hi & Hne).
  destruct type; try done; try (by rewrite createOrUpdateRecord_unsupported; eauto).
  all: start_sane Hs; unfold fld; rewrite Hi; cbn [of_raw].
  all: try (mrun; cbn [db_save ret]; unfold ret; by eauto).
  - destruct (getOrCreateAddress_total (record !! "bill_address1") (record !! "bill_address2")
                (record !! "bill_address3") (record !! "bill_address4")
                (record !! "bill_postal_zip_code") db) as (k & db1 & Hget & Hk).
    unfold bind. rewrite Hget. repeat mstep. unfold ret. eauto.
  - destruct (truthy (of_raw (SEQUENCE_KEYS T (record !! "name") (get_THIS_STORE_ID settings))))
      eqn:Hsk; cbn [negb]; [|by eauto].
    apply truthy_of_raw in Hsk as (s & -> & Hsne).
    unfold bind. cbv beta iota zeta.
    destruct (getObject_sequenceKey now s db Hsne) as (k & db1 & -> & Hf).
    repeat mstep. unfold ret. eauto.
Qed.
End results.

Lemma createOrUpdateRecord_idempotent_witness :
  ∃ db',
    createOrUpdateRecord parseFloat_digits (WallClock 0) example_translators
      example_settings ItemBatch (example_item_batch "3") ∅ = Ok (tt, db')
    ∧ createOrUpdateRecord parseFloat_digits (WallClock 1) example_translators
        example_settings ItemBatch (example_item_batch "3") db' = Ok (tt, db').
Proof.
  destruct (createOrUpdateRecord_returns parseFloat_digits example_translators
              example_settings (WallClock 0) ItemBatch (example_item_batch "3") ∅)
    as [db' Hdb']; [reflexivity | done | done |].
  exists db'. split; [done|].
  exact (proj2 (createOrUpdateRecord_idempotent parseFloat_digits example_translators
                  example_settings (WallClock 0) (WallClock 1) ItemBatch
                  (example_item_batch "3") ∅) db' Hdb').
Defined.

Lemma pack_size_normalization_witness :
  ∃ db' o,
    createOrUpdateRecord parseFloat_digits (WallClock 0) example_translators
      example_settings ItemBatch (example_item_batch "3") ∅ = Ok (tt, db')
    ∧ db' !! (ItemBatch, "b1") = Some o
    ∧ o !! "packSize" = Some (VNum 1)
    ∧ Forall (λ f, o !! f = Some (VNum 12)) ["numberOfPacks"].
Proof.
  exact (pack_size_normalization parseFloat_digits example_translators example_settings
           (WallClock 0) ItemBatch (example_item_batch "3") ∅
           "pack_size" "quantity" ["numberOfPacks"] "b1" "3" "4"
           eq_refl eq_refl eq_refl eq_refl eq_refl).
Defined.

Lemma division_guards_witness :
  (∃ db' o,
     createOrUpdateRecord parseFloat_digits (WallClock 0) example_translators
       example_settings RequisitionItem example_requisition_item example_requisition_db
     = Ok (tt, db')
     ∧ db' !! (RequisitionItem, "ri1") = Some o
     ∧ o !! "dailyUsage" = Some (VNum 0))
  ∧ (∃ db' o,
       createOrUpdateRecord parseFloat_digits (WallClock 0) example_translators
         example_settings ItemBatch (example_item_batch "0") ∅ = Ok (tt, db')
       ∧ db' !! (ItemBatch, "b1") = Some o
       ∧ Forall (λ f, o !! f = Some (VNum 0)) ["costPrice"; "sellPrice"])
  ∧ createOrUpdateRecord parseFloat_digits (WallClock 0) example_translators
      example_settings ItemBatch (example_item_batch "") ∅ = Ok (tt, ∅).
Proof.
  split; [|split].
  - apply (proj1 (division_guards parseFloat_digits example_translators example_settings
                    (WallClock 0) example_requisition_item example_requisition_db "ri1"
                    eq_refl)
             "r1" (mkobj [("id", VStr "r1"); ("daysToSupply", VNum 0)]) 0%float);
      reflexivity.
  - apply (proj1 (proj2 (division_guards parseFloat_digits example_translators
                           example_settings (WallClock 0) (example_item_batch "0") ∅ "b1"
                           eq_refl))
             ItemBatch "pack_size" ["costPrice"; "sellPrice"] "0"); reflexivity.
  - apply (proj2 (proj2 (division_guards parseFloat_digits example_translators
                           example_settings (WallClock 0) (example_item_batch "") ∅ "b1"
                           eq_refl))
             ItemBatch "pack_size" ["costPrice"; "sellPrice"]); [reflexivity|].
    intros (s & Hs & Hne). vm_compute in Hs. congruence.
Defined.

(** C5 as stated fails for an absent pack size: the record is skipped, and
    the database holds no object for it whose prices could be 0. *)
Lemma division_guards_absent_counterexample :
  example_item_batch_no_pack_size !! "pack_size" = None
  ∧ createOrUpdateRecord parseFloat_digits (WallClock 0) example_translators
      example_settings ItemBatch example_item_batch_no_pack_size ∅ = Ok (tt, ∅)
  ∧ ¬ ∃ o, (∅ : store) !! (ItemBatch, "b1") = Some o
           ∧ Forall (λ f, o !! f = Some (VNum 0)) ["costPrice"; "sellPrice"].
Proof.
  split; [reflexivity|]. split.
  - by apply createOrUpdateRecord_rejected.
  - intros (o & Ho & _). by rewrite lookup_empty in Ho.
Qed.

Lemma sequence_of_another_store_witness :
  createOrUpdateRecord parseFloat_digits (WallClock 0) example_translators
    example_settings NumberSequence example_number_sequence ∅ = Ok (tt, ∅).
Proof.
  apply (sequence_of_another_store parseFloat_digits example_translators example_settings
           (WallClock 0) NumberSequence example_number_sequence ∅);
    [by left | reflexivity].
Defined.

(** * Further properties of the engine *)

(** ** The parsers *)

(** X1: [parseNumber] answers null exactly when the string is missing or
    empty; any other string, "0" included, gives the number [parseFloat]
    reads in it. *)
Theorem parseNumber_null_iff (parseFloat : string → float) (numberString : option string) :
  (parseNumber parseFloat numberString = VNull
   ↔ numberString = None ∨ numberString = Some "")
  ∧ ∀ s, numberString = Some s → s ≠ "" →
      parseNumber parseFloat numberString = VNum (parseFloat s).
Proof.
  split.
  - destruct numberString as [s|]; [|by split; [left|]].
    destruct (decide (s = "")) as [->|Hs]; [by split; [right|]|].
    rewrite parseNumber_nonempty by done. split; [done|]. intros [?|[= ?]]; done.
  - intros s -> Hs. by apply parseNumber_nonempty.
Qed.

Lemma parseNumber_null_iff_witness :
  parseNumber parseFloat_digits (Some "0") = VNum 0.
Proof.
  exact (proj2 (parseNumber_null_iff parseFloat_digits (Some "0")) "0" eq_refl
           ltac:(discriminate)).
Defined.

Lemma parseDate_some (iso : string) (ISOTime : option string) :
  iso ≠ "" → iso ≠ "0000-00-00T00:00:00" →
  parseDate (Some iso) ISOTime
  = match ISOTime with
    | Some t =>
        if Nat.leb 6 (utf16_length t)
        then VDate (SetHours (NewDate iso) (Substring t 0 2) (Substring t 2 4)
                      (Substring t 4 6))
        else VDate (NewDate iso)
    | None => VDate (NewDate iso)
    end.
Proof.
  intros Hne Hz. unfold parseDate. cbn [of_raw truthy length_lt].
  destruct (String.eqb_spec iso "") as [->|_]; [done|].
  assert (Nat.ltb (String.length iso) 1 = false) as -> by (by destruct iso).
  rewrite bool_decide_eq_false_2 by congruence. cbn [negb orb].
  destruct ISOTime as [t|]; [|done].
  destruct (String.eqb_spec t "") as [->|_]; [done|]. cbn [negb andb].
  rewrite Nat.ltb_antisym, negb_involutive. done.
Qed.

(** X2: [parseDate] answers null exactly when the date is missing, empty or
    the zero date "0000-00-00T00:00:00".  Otherwise it answers the date.  A
    time of six UTF-16 code units or more sets its hours, minutes and
    seconds, from the first, second and third pair of code units; a time of
    fewer code units, however many bytes it takes, is left out altogether. *)
Theorem parseDate_null_and_time (ISODate ISOTime : option string) :
  (parseDate ISODate ISOTime = VNull
   ↔ ISODate = None ∨ ISODate = Some "" ∨ ISODate = Some "0000-00-00T00:00:00")
  ∧ (∀ iso t,
       ISODate = Some iso → iso ≠ "" → iso ≠ "0000-00-00T00:00:00" →
       ISOTime = Some t → (6 ≤ utf16_length t)%nat →
       parseDate ISODate ISOTime
       = VDate (SetHours (NewDate iso) (Substring t 0 2) (Substring t 2 4)
                  (Substring t 4 6)))
  ∧ (∀ iso t,
       ISODate = Some iso → iso ≠ "" → iso ≠ "0000-00-00T00:00:00" →
       ISOTime = Some t → (utf16_length t < 6)%nat →
       parseDate ISODate ISOTime = parseDate ISODate None
       ∧ parseDate ISODate None = VDate (NewDate iso)).
Proof.
  split; [|split].
  - destruct ISODate as [iso|]; [|by split; [left|]].
    destruct (decide (iso = "")) as [->|Hne]; [by split; [right; left|]|].
    destruct (decide (iso = "0000-00-00T00:00:00")) as [->|Hz].
    { split; [by right; right | by destruct ISOTime]. }
    rewrite parseDate_some by done. split.
    + destruct ISOTime as [t|]; [|done]. by destruct (Nat.leb 6 (utf16_length t)).
    + intros [?|[[= ?]|[= ?]]]; done.
  - intros iso t -> Hne Hz -> Ht. rewrite parseDate_some by done.
    apply Nat.leb_le in Ht. by rewrite Ht.
  - intros iso t -> Hne Hz -> Ht. rewrite !parseDate_some by done.
    apply Nat.leb_gt in Ht. by rewrite Ht.
Qed.

Lemma parseDate_null_and_time_witness :
  parseDate (Some "2016-09-12T00:00:00") (Some "141530")
  = VDate (SetHours (NewDate "2016-09-12T00:00:00") (Substring "141530" 0 2)
             (Substring "141530" 2 4) (Substring "141530" 4 6))
  ∧ String.length "١٢٣" = 6
  ∧ parseDate (Some "2016-09-12T00:00:00") (Some "١٢٣")
    = VDate (NewDate "2016-09-12T00:00:00").
Proof.
  split; [|split; [reflexivity|]].
  - apply (proj1 (proj2 (parseDate_null_and_time (Some "2016-09-12T00:00:00")
                           (Some "141530")))
             "2016-09-12T00:00:00" "141530"); done.
  - destruct (proj2 (proj2 (parseDate_null_and_time (Some "2016-09-12T00:00:00")
                              (Some "١٢٣")))
                "2016-09-12T00:00:00" "١٢٣" eq_refl ltac:(discriminate)
                ltac:(discriminate) eq_refl ltac:(vm_compute; lia)) as [-> ->].
    done.
Defined.

(** ** Placeholders and the reference resolver *)

Lemma assoc_Some_elem (f : string) (l : list (string * value)) (v : value) :
  assoc f l = Some v → (f, v) ∈ l.
Proof.
  induction l as [|[g w] l IH]; [done|]. cbn [assoc].
  destruct (String.eqb_spec g f) as [->|_].
  - intros [= ->]. left.
  - intros H. right. by apply IH.
Qed.

(** X3: [generatePlaceholder] leaves the database alone.  The placeholder it
    answers carries the requested key as its [id] (for a NumberSequence: as
    its [sequenceKey], under an [id] that no object of the database has),
    and every other field holds a default: the string "placeholder", 0,
    false, or the time of the call. *)
Theorem generatePlaceholder_fields (now : date) (type : recordType) (primaryKey : string)
    (db db' : store) (o : obj) :
  generatePlaceholder now type primaryKey db = Ok (o, db') →
  db' = db
  ∧ (if decide (type = NumberSequence)
     then o !! "sequenceKey" = Some (VStr primaryKey)
          ∧ ∃ uuid, o !! "id" = Some (VStr uuid) ∧ ∀ t, db !! (t, uuid) = None
     else o !! "id" = Some (VStr primaryKey))
  ∧ ∀ f v, o !! f = Some v → f ≠ "id" → f ≠ "sequenceKey" →
           placeholder_default now v.
Proof.
  intros Hgen. unfold placeholder_default.
  unfold generatePlaceholder, ret, throw, bind, generateUUID, gets in Hgen.
  destruct type; simplify_eq;
    (split; [done|]);
    (split; [|intros f v; rewrite lookup_mkobj; intros Hf%assoc_Some_elem ? ?;
              set_unfold; naive_solver]).
  all: try (rewrite lookup_mkobj; reflexivity).
  rewrite decide_True by done.
  split; [by rewrite lookup_mkobj|].
  eexists. split; [by rewrite lookup_mkobj|].
  intros t. apply generateUUID_fresh.
Qed.

Lemma generatePlaceholder_fields_witness :
  ∃ o, generatePlaceholder (WallClock 0) Transaction "t1" ∅ = Ok (o, ∅)
       ∧ o !! "id" = Some (VStr "t1")
       ∧ ∀ f v, o !! f = Some v → f ≠ "id" → f ≠ "sequenceKey" →
                placeholder_default (WallClock 0) v.
Proof.
  eexists. split; [reflexivity|].
  exact (proj2 (generatePlaceholder_fields (WallClock 0) Transaction "t1" ∅ ∅ _ eq_refl)).
Defined.

Lemma generatePlaceholder_key (now : date) (type : recordType) (pk : string)
    (db db' : store) (o : obj) :
  generatePlaceholder now type pk db = Ok (o, db') →
  db' = db ∧ has_template type = true
  ∧ ∃ i, o !! "id" = Some (VStr i) ∧ db_create type o db
         = match db !! (type, i) with
           | Some _ => Throw "Attempting to create an object with an existing primary key."
           | None => Ok ((type, i), <[(type, i) := o]> db)
           end.
Proof.
  intros Hgen.
  assert (has_template type = true) as Ht.
  { pose proof (has_template_spec now type pk db) as Hs.
    destruct (has_template type); [done|]. congruence. }
  unfold generatePlaceholder, ret, throw, bind, generateUUID, gets in Hgen.
  destruct type; simplify_eq; (split; [done|]); (split; [done|]);
    eexists; (split; [by rewrite lookup_mkobj|]);
    unfold db_create; rewrite lookup_mkobj; reflexivity.
Qed.

(** The three ways a call of [getObject] with a key can go. *)
Lemma getObject_outcome (now : date) (type : recordType) (pk f : string) (db : store) :
  pk ≠ "" →
  (∃ k o, getObject now type (Some pk) f db = Ok (Some k, db)
          ∧ first (query type f pk db) = Some k ∧ k.1 = type ∧ db !! k = Some o)
  ∨ (first (query type f pk db) = None
     ∧ ∃ i o, getObject now type (Some pk) f db = Ok (Some (type, i), <[(type, i) := o]> db)
              ∧ generatePlaceholder now type pk db = Ok (o, db)
              ∧ db !! (type, i) = None)
  ∨ (first (query type f pk db) = None
     ∧ ∃ e, getObject now type (Some pk) f db = Throw e).
Proof.
  intros Hpk. rewrite getObject_query by done.
  destruct (first (query type f pk db)) as [k|] eqn:Hf.
  - left. destruct (first_Some _ _ Hf) as [o Ho]. rewrite lookup_query in Ho.
    case_decide; [|done]. destruct (db !! k) as [o'|] eqn:Hk; [|done].
    by exists k, o'.
  - right. destruct (generatePlaceholder now type pk db) as [[o db1]|e] eqn:Hgen;
      [|right; eauto].
    destruct (generatePlaceholder_key _ _ _ _ _ _ Hgen) as (-> & _ & i & Hi & ->).
    destruct (db !! (type, i)) eqn:Hdb; [right; eauto|].
    left. split; [done|]. by exists i, o.
Qed.

(** X4: when [getObject] answers an object, that object is of the requested
    type and is in the database the call leaves; the call either leaves the
    database as it was, or adds that one object to it, under a key that was
    free.  It answers null exactly for a missing or empty key, leaving
    the database as it was. *)
Theorem getObject_answer_in_database (now : date) (type : recordType)
    (primaryKey : option string) (f : string) (db db' : store) (answer : option key) :
  getObject now type primaryKey f db = Ok (answer, db') →
  match answer with
  | None => ¬ nonempty primaryKey ∧ db' = db
  | Some k =>
      nonempty primaryKey ∧ k.1 = type ∧ is_Some (db' !! k)
      ∧ (db' = db ∨ ∃ o, db !! k = None ∧ db' = <[k := o]> db)
  end.
Proof.
  intros Hget. destruct (handle_cases type primaryKey) as [Hh | (pk & Hpk & -> & _)].
  - rewrite getObject_handle_None in Hget by done. simplify_eq. split; [|done].
    intros (s & -> & Hs). unfold handle in Hh. by destruct (String.eqb_spec s "").
  - assert (nonempty (Some pk)) by (by exists pk).
    destruct (getObject_outcome now type pk f db Hpk)
      as [(k & o & Hg & _ & Hk & Ho) | [(_ & i & o & Hg & _ & Hi) | (_ & e & Hg)]];
      rewrite Hg in Hget; simplify_eq.
    + split; [done|]. split; [done|]. split; [eauto | by left].
    + split; [done|]. split; [done|]. rewrite lookup_insert_eq.
      split; [eauto | right; eauto].
Qed.

Lemma getObject_answer_in_database_witness :
  is_Some (({[ (Item, "i1") := mkobj [("id", VStr "i1")] ]} : store) !! (Item, "i1")).
Proof.
  exact (proj1 (proj2 (proj2 (getObject_answer_in_database (WallClock 0) Item (Some "i1")
           "id" {[ (Item, "i1") := mkobj [("id", VStr "i1")] ]} _ (Some (Item, "i1"))
           eq_refl)))).
Defined.

(** X5: a second [getObject] for the same key answers the object of the
    first one and changes nothing, for a lookup by [id] of any type but
    NumberSequence and for a lookup of a NumberSequence by [sequenceKey]:
    the placeholder a lookup creates is found by the next one. *)
Theorem getObject_again (now now' : date) (type : recordType) (pk f : string)
    (db db' : store) (k : key) :
  (f = "id" ∧ type ≠ NumberSequence) ∨ (f = "sequenceKey" ∧ type = NumberSequence) →
  getObject now type (Some pk) f db = Ok (Some k, db') →
  getObject now' type (Some pk) f db' = Ok (Some k, db').
Proof.
  intros Hf Hget.
  assert (pk ≠ "") as Hpk.
  { intros ->. by rewrite (proj2 (getObject_null now type f db)) in Hget. }
  destruct Hf as [[-> Hns] | [-> ->]].
  - rewrite getObject_query, first_query_by_id in Hget by done.
    rewrite getObject_query, first_query_by_id by done.
    destruct (db !! (type, pk)) as [o|] eqn:Hdb; [by simplify_eq; rewrite Hdb|].
    destruct (generatePlaceholder now type pk db) as [[o db1]|e] eqn:Hgen; [|done].
    unfold generatePlaceholder, ret, throw, bind, generateUUID, gets in Hgen.
    destruct type; simplify_eq; unfold db_create in Hget;
      rewrite lookup_mkobj in Hget; cbn [assoc String.eqb Ascii.eqb Bool.eqb] in Hget;
      rewrite Hdb in Hget; simplify_eq; by rewrite lookup_insert_eq.
  - destruct (getObject_sequenceKey now pk db Hpk) as (k' & db1 & Hget' & Hfirst).
    rewrite Hget' in Hget. simplify_eq. by apply getObject_found.
Qed.

Lemma getObject_again_witness :
  ∃ k db', getObject (WallClock 0) Name (Some "n1") "id" ∅ = Ok (Some k, db')
           ∧ getObject (WallClock 1) Name (Some "n1") "id" db' = Ok (Some k, db').
Proof.
  eexists _, _. split; [reflexivity|].
  apply (getObject_again (WallClock 0) (WallClock 1) Name "n1" "id" ∅);
    [by left | reflexivity].
Defined.

(** X6: a lookup by [id] throws in one case only: the key is not empty, no
    object of the type has it, and the type has no placeholder template. *)
Theorem getObject_throws_iff (now : date) (type : recordType) (primaryKey : option string)
    (db : store) (e : string) :
  getObject now type primaryKey "id" db = Throw e
  ↔ ∃ pk, primaryKey = Some pk ∧ pk ≠ "" ∧ db !! (type, pk) = None
          ∧ has_template type = false
          ∧ e = "Unsupported database object type.".
Proof.
  destruct (handle_cases type primaryKey) as [Hh | (pk & Hpk & -> & _)].
  - rewrite getObject_handle_None by done. split; [done|].
    intros (pk & -> & Hpk & _). unfold handle in Hh.
    by destruct (String.eqb_spec pk "").
  - destruct (has_template type) eqn:Ht.
    + split; [|by intros (? & ? & ? & ? & ? & ?)].
      destruct (db !! (type, pk)) as [o|] eqn:Hdb.
      * by rewrite getObject_query, first_query_by_id, Hdb.
      * destruct (getObject_absent now type pk db Ht Hpk Hdb) as (k & o & -> & _). done.
    + rewrite getObject_untemplated by done.
      destruct (db !! (type, pk)) as [o|] eqn:Hdb.
      * split; [done|]. intros (pk' & [= <-] & _ & Hn & _). congruence.
      * split; [intros [= <-]; by exists pk|]. by intros (? & ? & ? & ? & ? & ->).
Qed.

Lemma getObject_throws_iff_witness :
  getObject (WallClock 0) StocktakeBatch (Some "sb1") "id" ∅
  = Throw "Unsupported database object type.".
Proof.
  apply (proj2 (getObject_throws_iff (WallClock 0) StocktakeBatch (Some "sb1") ∅ _)).
  by exists "sb1".
Defined.

(** ** Deletion *)

Lemma deleteRecord_supported (now : date) (type : recordType) (recordId : option string) :
  supported type = true →
  deleteRecord now type recordId
  = (let* recordToDelete := getObject now type recordId "id" in
     db_delete type recordToDelete).
Proof. by destruct type. Qed.

Lemma deleteRecord_present (now : date) (type : recordType) (recordId : string)
    (db : store) (o : obj) :
  supported type = true → recordId ≠ "" → db !! (type, recordId) = Some o →
  deleteRecord now type (Some recordId) db = Ok (tt, delete (type, recordId) db).
Proof.
  intros Hsup Hid Hdb. rewrite deleteRecord_supported by done. unfold bind.
  by rewrite getObject_query, first_query_by_id, Hdb.
Qed.

(** X7: what [deleteRecord] does for a supported type and a key that is
    not empty.  When the database holds an object under that key, the call
    returns and the object is gone; what else the store cleans up with it
    is not stated.  When there is none, the database is left as it was if
    the type has a placeholder template, and the call throws if it has
    not. *)
Theorem deleteRecord_outcome (now : date) (type : recordType) (recordId : string)
    (db : store) :
  supported type = true → recordId ≠ "" →
  match db !! (type, recordId) with
  | Some _ =>
      ∃ db', deleteRecord now type (Some recordId) db = Ok (tt, db')
             ∧ db' !! (type, recordId) = None
  | None =>
      deleteRecord now type (Some recordId) db
      = if has_template type then Ok (tt, db)
        else Throw "Unsupported database object type."
  end.
Proof.
  intros Hsup Hid.
  destruct (db !! (type, recordId)) as [o|] eqn:Hdb.
  - exists (delete (type, recordId) db).
    split; [by apply deleteRecord_present with o | apply lookup_delete_eq].
  - rewrite deleteRecord_supported by done. unfold bind.
    destruct (has_template type) eqn:Ht.
    + destruct (getObject_absent now type recordId db Ht Hid Hdb) as (k & o & -> & _ & Hk).
      cbn [db_delete]. unfold modify. by rewrite delete_insert_eq, delete_id.
    + by rewrite getObject_untemplated, Hdb.
Qed.

Lemma deleteRecord_outcome_witness :
  ∃ db', deleteRecord (WallClock 0) StocktakeBatch (Some "sb1")
           {[ (StocktakeBatch, "sb1") := mkobj [("id", VStr "sb1")] ]} = Ok (tt, db')
         ∧ db' !! (StocktakeBatch, "sb1") = None.
Proof.
  pose proof (deleteRecord_outcome (WallClock 0) StocktakeBatch "sb1"
                {[ (StocktakeBatch, "sb1") := mkobj [("id", VStr "sb1")] ]} eq_refl
                ltac:(discriminate)) as H.
  by rewrite lookup_singleton_eq in H.
Defined.



(** ** Record types the sync leaves alone *)

Lemma sanityCheck_unsupported (type : recordType) (record : raw) :
  supported type = false → truthy (sanityCheckIncomingRecord type record) = false.
Proof.
  intros Hsup. unfold sanityCheckIncomingRecord.
  destruct type; try done; by destruct (negb _ || _).
Qed.

(** X9: for a record type the sync does not handle (Address, User and any
    type it does not know), [createOrUpdateRecord] and [deleteRecord] leave
    the database as it is and do not throw, whatever the record. *)
Theorem unsupported_types_ignored (parseFloat : string → float) (now : date)
    (T : translators) (settings : Settings) (type : recordType) (record : raw)
    (recordId : option string) (db : store) :
  supported type = false →
  createOrUpdateRecord parseFloat now T settings type record db = Ok (tt, db)
  ∧ deleteRecord now type recordId db = Ok (tt, db).
Proof.
  intros Hsup. split; [|by destruct type].
  unfold createOrUpdateRecord. by rewrite sanityCheck_unsupported.
Qed.

Lemma unsupported_types_ignored_witness :
  createOrUpdateRecord parseFloat_digits (WallClock 0) example_translators
    example_settings User (list_to_map [("ID", "u1"); ("name", "Kiri")]) example_address_db
  = Ok (tt, example_address_db)
  ∧ deleteRecord (WallClock 0) Address (Some "a1") example_address_db
    = Ok (tt, example_address_db).
Proof.
  split.
  - apply (unsupported_types_ignored parseFloat_digits (WallClock 0) example_translators
             example_settings User (list_to_map [("ID", "u1"); ("name", "Kiri")]) None
             example_address_db eq_refl).
  - apply (unsupported_types_ignored parseFloat_digits (WallClock 0) example_translators
             example_settings Address ∅ (Some "a1") example_address_db eq_refl).
Defined.

(** X10: a malformed record is skipped.  For every record type,
    [createOrUpdateRecord] leaves the database as it is and does not throw
    when the record lacks its [ID] (or has it empty), when it lacks (or has
    empty) one of the fields its type requires, or, for ItemCategory,
    ItemDepartment and MasterList, when it lacks the one field they ask
    for. *)
Theorem malformed_record_skipped (parseFloat : string → float) (now : date)
    (T : translators) (settings : Settings) (type : recordType) (record : raw)
    (db : store) :
  ¬ nonempty (record !! "ID")
  ∨ (∃ fields f, required_fields type = Some fields ∧ f ∈ fields
                 ∧ ¬ nonempty (record !! f))
  ∨ (∃ d, descriptive_field type = Some d ∧ record !! d = None) →
  createOrUpdateRecord parseFloat now T settings type record db = Ok (tt, db).
Proof.
  intros Hbad. apply createOrUpdateRecord_rejected.
  apply not_true_is_false. rewrite sanityCheck_accepts. intros [Hid Ha].
  destruct Hbad as [Hn | [(fields & f & Hfs & Hf & Hn) | (d & Hd & Hn)]]; [done| |].
  - unfold accepts in Ha. rewrite Hfs in Ha.
    assert (descriptive_field type = None) as Hd by (by destruct type).
    rewrite Hd in Ha. rewrite Forall_forall in Ha. by apply Hn, Ha.
  - unfold accepts in Ha. rewrite Hd, Hn in Ha. by destruct Ha.
Qed.

Lemma malformed_record_skipped_witness :
  createOrUpdateRecord parseFloat_digits (WallClock 0) example_translators
    example_settings Item
    (list_to_map [("ID", "i1"); ("item_name", "Amoxicillin"); ("default_pack_size", "10")])
    ∅
  = Ok (tt, ∅)
  ∧ createOrUpdateRecord parseFloat_digits (WallClock 0) example_translators
      example_settings MasterList (list_to_map [("ID", "l1"); ("note", "n")]) ∅
    = Ok (tt, ∅).
Proof.
  split.
  - apply (malformed_record_skipped parseFloat_digits (WallClock 0) example_translators
             example_settings Item _ ∅).
    right; left. exists ["code"; "item_name"; "default_pack_size"], "code".
    split; [reflexivity|]. split; [set_solver|].
    intros (s & Hs & _). vm_compute in Hs. congruence.
  - apply (malformed_record_skipped parseFloat_digits (WallClock 0) example_translators
             example_settings MasterList _ ∅).
    right; right. by exists "description".
Defined.

(** ** The entry point *)

Section entry_properties.
Variable parseFloat : string → float.
Variable T : translators.
Variable E : entryTranslators.
Variable settings : Settings.

(** X11: [integrateRecord] skips, without error and without touching the
    database, a sync record that lacks its record type or its sync type, a
    create or update that carries no data, and a delete that names no
    record. *)
Theorem integrateRecord_skips_incomplete (now : date) (syncRecord : syncRecord)
    (db : store) :
  ¬ nonempty (RecordType syncRecord) ∨ ¬ nonempty (SyncType syncRecord)
  ∨ (∃ syncType, SyncType syncRecord = Some syncType
       ∧ (SYNC_TYPES E syncType = Some CREATE ∨ SYNC_TYPES E syncType = Some UPDATE)
       ∧ data syncRecord = None)
  ∨ (∃ syncType, SyncType syncRecord = Some syncType
       ∧ SYNC_TYPES E syncType = Some DELETE
       ∧ ¬ nonempty (RecordID syncRecord)) →
  integrateRecord parseFloat now T E settings syncRecord db = Ok (tt, db).
Proof.
  intros Hskip. unfold integrateRecord.
  destruct (truthy (of_raw (RecordType syncRecord))) eqn:Hrt; [|done].
  destruct (truthy (of_raw (SyncType syncRecord))) eqn:Hst; [|done].
  cbn [negb orb].
  apply truthy_of_raw in Hrt as Hrt'. apply truthy_of_raw in Hst as Hst'.
  destruct Hskip as [? | [? | [(st & Hs & Hct & Hd) | (st & Hs & Hct & Hid)]]];
    try done.
  - rewrite Hs. destruct Hrt' as (rt & -> & _). by destruct Hct as [-> | ->]; rewrite Hd.
  - rewrite Hs. destruct Hrt' as (rt & -> & _). rewrite Hct.
    destruct (truthy (of_raw (RecordID syncRecord))) eqn:Hrid; [|done].
    by apply truthy_of_raw in Hrid.
Qed.



(** X12: for a sync record that has a record type, a sync type that
    translates to none of create, update and delete is fatal:
    [integrateRecord] throws, naming the sync type, whatever the data and
    the record identifier of the sync record.  (Without a record type the
    sync record is skipped before its sync type is looked at.) *)
Theorem integrateRecord_unknown_sync_type (now : date) (syncRecord : syncRecord)
    (syncType : string) (db : store) :
  nonempty (RecordType syncRecord) →
  SyncType syncRecord = Some syncType → syncType ≠ "" →
  SYNC_TYPES E syncType = None →
  integrateRecord parseFloat now T E settings syncRecord db
  = Throw ("Cannot integrate sync record with sync type " ++ syncType).
Proof.
  intros (rt & Hrt & Hne) Hst Hsne Hct. unfold integrateRecord.
  rewrite Hrt, Hst, Hct. cbn [of_raw truthy].
  destruct (String.eqb_spec rt ""); [done|].
  by destruct (String.eqb_spec syncType "").
Qed.



(** X13: a create and an update are integrated the same way: with the same
    record type and data, the outcome does not depend on which of the two
    the sync type is, nor on the record identifier of the sync record. *)
Theorem integrateRecord_create_as_update (now : date) (typeCode : option string)
    (createCode updateCode : string) (id id' : option string) (record : option raw) (db : store) :
  createCode ≠ "" → updateCode ≠ "" →
  SYNC_TYPES E createCode = Some CREATE → SYNC_TYPES E updateCode = Some UPDATE →
  integrateRecord parseFloat now T E settings
    {| RecordType := typeCode; SyncType := Some createCode; RecordID := id;
       data := record |} db
  = integrateRecord parseFloat now T E settings
      {| RecordType := typeCode; SyncType := Some updateCode; RecordID := id';
         data := record |} db.
Proof.
  intros Hc Hu Hcc Huu. unfold integrateRecord. cbn [RecordType SyncType RecordID data].
  cbn [of_raw truthy].
  destruct (String.eqb_spec createCode ""); [done|].
  destruct (String.eqb_spec updateCode ""); [done|].
  rewrite Hcc, Huu. done.
Qed.
End entry_properties.

Lemma integrateRecord_skips_incomplete_witness :
  integrateRecord parseFloat_digits (WallClock 0) example_translators
    example_entry_translators example_settings
    {| RecordType := Some "item"; SyncType := Some "D"; RecordID := Some "";
       data := None |}
    example_address_db
  = Ok (tt, example_address_db).
Proof.
  apply (integrateRecord_skips_incomplete parseFloat_digits example_translators
           example_entry_translators).
  right; right; right.
  exists "D". split; [done|]. split; [done|]. by intros (s & [= <-] & ?).
Defined.

Lemma integrateRecord_unknown_sync_type_witness :
  integrateRecord parseFloat_digits (WallClock 0) example_translators
    example_entry_translators example_settings
    {| RecordType := Some "item"; SyncType := Some "merge"; RecordID := Some "i1";
       data := None |}
    ∅
  = Throw "Cannot integrate sync record with sync type merge".
Proof.
  apply (integrateRecord_unknown_sync_type parseFloat_digits example_translators
           example_entry_translators example_settings (WallClock 0)
           {| RecordType := Some "item"; SyncType := Some "merge"; RecordID := Some "i1";
              data := None |} "merge" ∅); [by exists "item" | done | done | done].
Defined.

Lemma integrateRecord_create_as_update_witness :
  integrateRecord parseFloat_digits (WallClock 0) example_translators
    example_entry_translators example_settings
    {| RecordType := Some "item_line"; SyncType := Some "I"; RecordID := Some "b1";
       data := Some (example_item_batch "3") |} ∅
  = integrateRecord parseFloat_digits (WallClock 0) example_translators
      example_entry_translators example_settings
      {| RecordType := Some "item_line"; SyncType := Some "U"; RecordID := None;
         data := Some (example_item_batch "3") |} ∅.
Proof.
  by apply (integrateRecord_create_as_update parseFloat_digits example_translators
              example_entry_translators example_settings (WallClock 0)
              (Some "item_line") "I" "U").
Defined.

(** ** What integration leaves in the database *)

Lemma keeps_refl (db : store) : keeps db db.
Proof. by intros k. Qed.

Lemma keeps_insert (db m : store) (k : key) (o : obj) :
  keeps db m → keeps db (<[k := o]> m).
Proof.
  intros H j Hj. destruct (decide (j = k)) as [->|]; [by rewrite lookup_insert_eq|].
  rewrite lookup_insert_ne by done. by apply H.
Qed.

Lemma keeps_alter (db m : store) (k : key) (g : obj → obj) :
  keeps db m → keeps db (alter g k m).
Proof.
  intros H j Hj. destruct (decide (j = k)) as [->|].
  - rewrite lookup_alter_eq. apply fmap_is_Some. by apply H.
  - rewrite lookup_alter_ne by done. by apply H.
Qed.

Lemma keeps_present (db m : store) (k : key) (o : obj) :
  keeps db m → keeps db (present o k m).
Proof. intros H. unfold present. destruct (m !! k); [done | by apply keeps_insert]. Qed.

Ltac keeps_all :=
  repeat first [apply keeps_alter | apply keeps_insert | apply keeps_present];
  try apply keeps_refl.

(** Run an arm on a record that passed the sanity check, to the database
    it leaves. *)
Ltac run Hi :=
  unfold fld; rewrite ?Hi; cbn [of_raw]; mrun;
  cbn [db_save ret]; unfold ret, returning, TypeError, throw.

Section outcomes.
Variable parseFloat : string → float.
Variable T : translators.
Variable settings : Settings.

Lemma createOrUpdateRecord_keeps (now : date) (type : recordType) (record : raw)
    (db : store) :
  returning (createOrUpdateRecord parseFloat now T settings type record db)
    (λ _ db', keeps db db').
Proof.
  destruct (truthy (sanityCheckIncomingRecord type record)) eqn:Hs.
  2:{ unfold createOrUpdateRecord. rewrite Hs. apply keeps_refl. }
  destruct (sanity_ID _ _ Hs) as (i & Hi & Hne).
  destruct type; try (rewrite createOrUpdateRecord_unsupported by done; apply keeps_refl).
  all: start_sane Hs.
  all: try (run Hi; try done; by keeps_all).
  - (* Name *)
    unfold fld; rewrite Hi; cbn [of_raw]. unfold bind.
    rewrite getOrCreateAddress_eq.
    destruct (first (address_query _ _ _ _ _ db)); repeat mstep;
      unfold ret, returning; by keeps_all.
  - (* NumberToReuse *)
    unfold fld; rewrite Hi; cbn [of_raw].
    destruct (truthy (of_raw (SEQUENCE_KEYS T (record !! "name") (get_THIS_STORE_ID settings))))
      eqn:Hsk; cbn [negb]; [|apply keeps_refl].
    apply truthy_of_raw in Hsk as (s & -> & Hsne).
    unfold bind. cbv beta iota zeta.
    destruct (getObject_outcome now NumberSequence s "sequenceKey" db Hsne)
      as [(k & o & -> & _) | [(_ & j & o & -> & _) | (_ & e & ->)]];
      repeat mstep; unfold ret, returning; try done; by keeps_all.
  - (* RequisitionItem *)
    unfold fld; rewrite Hi; cbn [of_raw]. unfold bind. cbv beta iota zeta.
    destruct (handle_cases Requisition (record !! "requisition_ID"))
      as [Hreq | (rid & Hrid & Hr & _)].
    { by rewrite getObject_handle_None. }
    rewrite Hr, getObject_untemplated by done.
    destruct (db !! (Requisition, rid)) as [req|] eqn:Hdb; [|done].
    cbn [get_prop gets]. repeat mstep. unfold ret, returning. by keeps_all.
Qed.
End outcomes.

Lemma is_Some_insert (m : store) (k j : key) (o : obj) :
  is_Some (m !! j) → is_Some (<[k := o]> m !! j).
Proof. apply (keeps_insert m m k o (keeps_refl m)). Qed.

Lemma is_Some_alter (m : store) (k j : key) (g : obj → obj) :
  is_Some (m !! j) → is_Some (alter g k m !! j).
Proof. apply (keeps_alter m m k g (keeps_refl m)). Qed.

Lemma is_Some_present (m : store) (k j : key) (o : obj) :
  is_Some (m !! j) → is_Some (present o k m !! j).
Proof. apply (keeps_present m m k o (keeps_refl m)). Qed.

Lemma is_Some_present_eq (m : store) (k : key) (o : obj) : is_Some (present o k m !! k).
Proof. rewrite lookup_present_eq. eauto. Qed.

(** An object that was put in the database is still there. *)
Ltac stays :=
  repeat first
    [ apply is_Some_present_eq
    | rewrite lookup_insert_eq; by eauto
    | apply is_Some_alter
    | apply is_Some_insert
    | apply is_Some_present ];
  eauto.

(** The field of an object built by a literal and by assignments. *)
Ltac get_field :=
  cbn [fmap option_fmap option_map];
  rewrite ?lookup_insert_ne by done;
  first [ rewrite lookup_insert_eq
        | rewrite lookup_mkobj; cbn [assoc String.eqb Ascii.eqb Bool.eqb] ];
  try reflexivity.

Ltac stored :=
  eexists; split; [lk; cbn [fmap option_fmap option_map]; reflexivity|];
  split; [get_field|];
  cbn [relations]; rewrite ?Forall_cons, ?Forall_nil; cbn [resolved]; handles;
  repeat split;
  first [ by intros ? [=] | intros ? [= <-]; by stays | by get_field ].

Section stored.
Variable parseFloat : string → float.
Variable T : translators.
Variable settings : Settings.

Lemma createOrUpdateRecord_stored (now : date) (type : recordType) (record : raw)
    (db : store) (i : string) :
  truthy (sanityCheckIncomingRecord type record) = true →
  record !! "ID" = Some i →
  (type = NumberSequence ∨ type = NumberToReuse →
   nonempty (SEQUENCE_KEYS T (record !! "name") (get_THIS_STORE_ID settings))) →
  returning (createOrUpdateRecord parseFloat now T settings type record db)
    (λ _ db', ∃ o, db' !! (type, i) = Some o
                   ∧ o !! "id" = Some (VStr i)
                   ∧ Forall (resolved record db' o) (relations type)).
Proof.
  intros Hs Hi Hseq.
  destruct type; try (by rewrite sanityCheck_unsupported in Hs).
  all: start_sane Hs.
  all: try (run Hi; try done; stored).
  - (* Name *)
    unfold fld; rewrite Hi; cbn [of_raw]. unfold bind.
    rewrite getOrCreateAddress_eq.
    destruct (first (address_query _ _ _ _ _ db)); repeat mstep;
      unfold ret, returning; stored.
  - (* NumberSequence *)
    destruct (Hseq (or_introl eq_refl)) as (s & Hsk & Hsne). rewrite Hsk.
    cbn [of_raw truthy]. destruct (String.eqb_spec s ""); [done|]. cbn [negb].
    run Hi. stored.
  - (* NumberToReuse *)
    destruct (Hseq (or_intror eq_refl)) as (s & Hsk & Hsne). rewrite Hsk.
    cbn [of_raw truthy]. destruct (String.eqb_spec s ""); [done|]. cbn [negb].
    unfold fld; rewrite Hi; cbn [of_raw]. unfold bind. cbv beta iota zeta.
    destruct (getObject_outcome now NumberSequence s "sequenceKey" db Hsne)
      as [(k & o & -> & _ & Hk & _) | [(_ & j & o & -> & _) | (_ & e & ->)]];
      [destruct k as [kt kid]; cbn [fst] in Hk; subst kt| |done];
      repeat mstep; unfold ret, returning; stored.
  - (* RequisitionItem *)
    unfold fld; rewrite Hi; cbn [of_raw]. unfold bind. cbv beta iota zeta.
    destruct (handle_nonempty Requisition (record !! "requisition_ID"))
      as (rid & Hrid & Hr & Hh); [done|].
    rewrite Hr, getObject_untemplated by done.
    destruct (db !! (Requisition, rid)) as [req|] eqn:Hdb; [|done].
    cbn [get_prop gets]. repeat mstep. unfold ret, returning.
    eexists; split; [lk; cbn [fmap option_fmap option_map]; reflexivity|].
    split; [get_field|].
    cbn [relations]; rewrite ?Forall_cons, ?Forall_nil; cbn [resolved]; handles.
    repeat split;
      first [ by intros ? [=] | intros ? [= <-]; by (stays; rewrite Hdb)
            | by get_field ].
Qed.
End stored.

Section stored_theorems.
Variable parseFloat : string → float.
Variable T : translators.
Variable settings : Settings.

(** X14: a record that passes the sanity check (with a sequence key for
    this store, for the two sequence types) is stored under its identifier:
    the database then holds an object of the record's type whose [id] is the
    record's [ID], and each relation of that object holds the object that
    the record names by primary key, which is in the database, or null when
    the record names none.  For every type but RequisitionItem and
    MasterListItem, the integration does return. *)
Theorem createOrUpdateRecord_stores_record (now : date) (type : recordType)
    (record : raw) (db : store) (i : string) :
  truthy (sanityCheckIncomingRecord type record) = true →
  record !! "ID" = Some i →
  (type = NumberSequence ∨ type = NumberToReuse →
   nonempty (SEQUENCE_KEYS T (record !! "name") (get_THIS_STORE_ID settings))) →
  (type ≠ RequisitionItem → type ≠ MasterListItem →
   ∃ db', createOrUpdateRecord parseFloat now T settings type record db = Ok (tt, db'))
  ∧ ∀ db',
      createOrUpdateRecord parseFloat now T settings type record db = Ok (tt, db') →
      ∃ o, db' !! (type, i) = Some o
           ∧ o !! "id" = Some (VStr i)
           ∧ Forall (resolved record db' o) (relations type).
Proof.
  intros Hs Hi Hseq. split.
  - intros. by apply createOrUpdateRecord_returns.
  - intros db' Hdb'.
    pose proof (createOrUpdateRecord_stored parseFloat T settings now type record db i
                  Hs Hi Hseq) as Hst.
    by rewrite Hdb' in Hst.
Qed.

(** X15: integrating a record never removes an object: whatever the
    record, every key that had an object before [createOrUpdateRecord] has
    one after it. *)
Theorem createOrUpdateRecord_never_removes (now : date) (type : recordType)
    (record : raw) (db db' : store) (k : key) :
  createOrUpdateRecord parseFloat now T settings type record db = Ok (tt, db') →
  is_Some (db !! k) → is_Some (db' !! k).
Proof.
  intros Hdb'.
  pose proof (createOrUpdateRecord_keeps parseFloat T settings now type record db) as Hk.
  rewrite Hdb' in Hk. apply Hk.
Qed.

(** X16: a MasterListItem record passes the sanity check without a master
    list identifier, and is then fatal: with [item_master_ID] missing or
    empty the integration throws on the null master list; with it, the
    integration returns. *)
Theorem masterListItem_needs_master_list (now : date) (record : raw) (db : store) :
  truthy (sanityCheckIncomingRecord MasterListItem record) = true →
  (¬ nonempty (record !! "item_master_ID") →
   createOrUpdateRecord parseFloat now T settings MasterListItem record db = TypeError db)
  ∧ (nonempty (record !! "item_master_ID") →
     ∃ db', createOrUpdateRecord parseFloat now T settings MasterListItem record db
            = Ok (tt, db')).
Proof.
  intros Hs. destruct (sanity_ID _ _ Hs) as (i & Hi & Hne). split; intros Hm.
  - start_sane Hs. unfold fld; rewrite Hi; cbn [of_raw].
    destruct (handle_cases MasterList (record !! "item_master_ID"))
      as [Hh | (pk & Hpk & Hr & _)]; [|destruct Hm; by exists pk].
    by mrun.
  - start_sane Hs. unfold fld; rewrite Hi; cbn [of_raw]. mrun. unfold ret. eauto.
Qed.

(** X17: a store join.  The join object says whether the record joins this
    store.  When it does, the Item (for an ItemStoreJoin) or Name (for a
    NameStoreJoin) it names is made visible unless the record's [inactive]
    is one of the true strings; when it does not, the join object is the
    only change to the database. *)
Theorem store_join_visibility (now : date) (type target : recordType) (record : raw)
    (db : store) (i targetField targetId : string) :
  join_target type = Some (target, targetField) →
  truthy (sanityCheckIncomingRecord type record) = true →
  record !! "ID" = Some i →
  record !! targetField = Some targetId →
  ∃ db' join,
    createOrUpdateRecord parseFloat now T settings type record db = Ok (tt, db')
    ∧ db' !! (type, i) = Some join
    ∧ if bool_decide (record !! "store_ID" = get_THIS_STORE_ID settings)
      then join !! "joinsThisStore" = Some (VBool true)
           ∧ ∃ o, db' !! (target, targetId) = Some o
                  ∧ o !! "isVisible"
                    = Some (VBool (negb (truthy (parseBoolean (record !! "inactive")))))
      else join !! "joinsThisStore" = Some (VBool false)
           ∧ db' = <[(type, i) := join]> db.
Proof.
  intros Hj Hs Hi Ht.
  destruct type; simplify_eq/=; start_sane Hs;
    unfold fld; rewrite Hi; cbn [of_raw];
    destruct (bool_decide (record !! "store_ID" = get_THIS_STORE_ID settings));
    mrun; cbn [db_save ret]; unfold ret; simplify_eq;
    eexists _, _; (split; [reflexivity|]); (split; [lk; reflexivity|]);
    (split; [by get_field|]); try done;
    eexists; (split; [lk; cbn [fmap option_fmap option_map]; reflexivity|]);
    by get_field.
Qed.
End stored_theorems.

Section more_outcomes.
Variable parseFloat : string → float.
Variable T : translators.
Variable settings : Settings.

(** X18: the cost price of an ItemBatch is its sell price.  The object
    stored for an ItemBatch record has the same [costPrice] as [sellPrice],
    and the record's [cost_price] only has to be there: replacing it by any
    other non-empty string changes nothing of the integration. *)
Theorem itemBatch_cost_price_is_sell_price (now : date) (record : raw) (db : store)
    (i c : string) :
  truthy (sanityCheckIncomingRecord ItemBatch record) = true →
  record !! "ID" = Some i →
  c ≠ "" →
  createOrUpdateRecord parseFloat now T settings ItemBatch (<["cost_price" := c]> record) db
  = createOrUpdateRecord parseFloat now T settings ItemBatch record db
  ∧ ∃ db' o,
      createOrUpdateRecord parseFloat now T settings ItemBatch record db = Ok (tt, db')
      ∧ db' !! (ItemBatch, i) = Some o
      ∧ o !! "costPrice" = o !! "sellPrice".
Proof.
  intros Hs Hi Hc. split.
  - assert (truthy (sanityCheckIncomingRecord ItemBatch (<["cost_price" := c]> record))
            = true) as Hs'.
    { apply sanityCheck_accepts. apply sanityCheck_accepts in Hs as [Hid Ha].
      split; [by rewrite lookup_insert_ne|].
      unfold accepts in *. cbn [descriptive_field required_fields] in *.
      rewrite !Forall_cons in *. destruct_and?.
      rewrite lookup_insert_eq, !lookup_insert_ne by done.
      repeat split; try done. by exists c. }
    unfold createOrUpdateRecord. rewrite Hs, Hs'. cbn [negb]. cbv beta iota zeta.
    unfold fld. by rewrite !lookup_insert_ne by done.
  - start_sane Hs. unfold fld; rewrite Hi; cbn [of_raw]. mrun.
    all: cbn [db_save ret]; unfold ret.
    all: eexists _, _; (split; [reflexivity|]); (split; [lk; reflexivity|]).
    all: rewrite !lookup_mkobj; reflexivity.
Qed.

(** X19: a TransactionBatch record ties the item batch it names to the
    item it names: after the integration the ItemBatch under
    [item_line_ID] has the Item under [item_ID] as its [item], whatever item
    it had, and both are in the database. *)
Theorem transactionBatch_relinks_item_batch (now : date) (record : raw) (db : store)
    (itemBatchId itemId : string) :
  truthy (sanityCheckIncomingRecord TransactionBatch record) = true →
  record !! "item_line_ID" = Some itemBatchId →
  record !! "item_ID" = Some itemId →
  ∃ db' itemBatch,
    createOrUpdateRecord parseFloat now T settings TransactionBatch record db = Ok (tt, db')
    ∧ db' !! (ItemBatch, itemBatchId) = Some itemBatch
    ∧ itemBatch !! "item" = Some (VObj (Item, itemId))
    ∧ is_Some (db' !! (Item, itemId)).
Proof.
  intros Hs Hb Ht. destruct (sanity_ID _ _ Hs) as (i & Hi & Hne).
  start_sane Hs. unfold fld; rewrite Hi; cbn [of_raw]. mrun.
  all: cbn [db_save ret]; unfold ret; simplify_eq.
  all: eexists _, _; (split; [reflexivity|]).
  all: split; [lk; cbn [fmap option_fmap option_map]; reflexivity|].
  all: split; [|by stays].
  all: rewrite lookup_add_to, decide_False by done; by rewrite lookup_insert_eq.
Qed.

(** X20: a MasterListNameJoin record gives the name it names the master
    list it names: after the integration the Name under [name_ID] has the
    MasterList under [list_master_ID] as its [masterList], and the join
    object refers to both. *)
Theorem masterListNameJoin_sets_master_list (now : date) (record : raw) (db : store)
    (i nameId masterListId : string) :
  truthy (sanityCheckIncomingRecord MasterListNameJoin record) = true →
  record !! "ID" = Some i →
  record !! "name_ID" = Some nameId →
  record !! "list_master_ID" = Some masterListId →
  ∃ db' name join,
    createOrUpdateRecord parseFloat now T settings MasterListNameJoin record db
    = Ok (tt, db')
    ∧ db' !! (Name, nameId) = Some name
    ∧ name !! "masterList" = Some (VObj (MasterList, masterListId))
    ∧ is_Some (db' !! (MasterList, masterListId))
    ∧ db' !! (MasterListNameJoin, i) = Some join
    ∧ join !! "name" = Some (VObj (Name, nameId))
    ∧ join !! "masterList" = Some (VObj (MasterList, masterListId)).
Proof.
  intros Hs Hi Hn Hm.
  start_sane Hs. unfold fld; rewrite Hi; cbn [of_raw]. mrun.
  all: cbn [db_save ret]; unfold ret; simplify_eq.
  all: eexists _, _, _; (split; [reflexivity|]).
  all: split; [lk; cbn [fmap option_fmap option_map]; reflexivity|].
  all: split; [by rewrite lookup_insert_eq|].
  all: split; [by stays|].
  all: split; [lk; reflexivity|].
  all: split; by get_field.
Qed.
End more_outcomes.

Lemma getOrCreateAddress_answer (line1 line2 line3 line4 zipCode : option string)
    (db db' : store) (k : key) :
  getOrCreateAddress line1 line2 line3 line4 zipCode db = Ok (k, db') →
  k.1 = Address ∧ is_Some (db' !! k).
Proof.
  rewrite getOrCreateAddress_eq.
  destruct (first (address_query line1 line2 line3 line4 zipCode db)) as [k0|] eqn:Hf;
    intros [= <- <-].
  - apply first_Some in Hf as [o Ho]. rewrite lookup_address_query in Ho.
    case_decide; [|done]. split; [done|]. by destruct (db !! k0).
  - split; [done|]. rewrite lookup_insert_eq. eauto.
Qed.

Lemma prop_is_field (f v : string) (k : key) (o : obj) :
  f ≠ "id" → prop_is f v (k, o) = true → o !! f = Some (VStr v).
Proof.
  intros Hf. unfold prop_is. rewrite decide_False by done. cbn [snd].
  destruct (o !! f) as [[]|]; try done. by intros ->%bool_decide_eq_true.
Qed.

Section compositions.
Variable parseFloat : string → float.
Variable T : translators.
Variable settings : Settings.

(** X21: names with the same billing address share one Address object.
    When two Name records that carry the same address lines are integrated
    one after the other, both names get the same [billingAddress], which is
    in the database, and the second integration adds no address. *)
Theorem names_share_billing_address (now now' : date) (record1 record2 : raw)
    (db : store) (i1 i2 : string) :
  truthy (sanityCheckIncomingRecord Name record1) = true →
  truthy (sanityCheckIncomingRecord Name record2) = true →
  record1 !! "ID" = Some i1 →
  record2 !! "ID" = Some i2 →
  Forall (λ f, record1 !! f = record2 !! f) address_lines →
  ∃ db1 db2 address name1 name2,
    createOrUpdateRecord parseFloat now T settings Name record1 db = Ok (tt, db1)
    ∧ createOrUpdateRecord parseFloat now' T settings Name record2 db1 = Ok (tt, db2)
    ∧ address.1 = Address ∧ is_Some (db2 !! address)
    ∧ db2 !! (Name, i1) = Some name1
    ∧ name1 !! "billingAddress" = Some (VObj address)
    ∧ db2 !! (Name, i2) = Some name2
    ∧ name2 !! "billingAddress" = Some (VObj address)
    ∧ ∀ k, k.1 = Address → db2 !! k = db1 !! k.
Proof.
  intros Hs1 Hs2 Hi1 Hi2 Hl. unfold address_lines in Hl.
  rewrite !Forall_cons in Hl. destruct Hl as (H1 & H2 & H3 & H4 & H5 & _).
  destruct (getOrCreateAddress_total (record1 !! "bill_address1")
              (record1 !! "bill_address2") (record1 !! "bill_address3")
              (record1 !! "bill_address4") (record1 !! "bill_postal_zip_code") db)
    as (k & db0 & Hget & Hk).
  destruct (getOrCreateAddress_answer _ _ _ _ _ _ _ _ Hget) as [_ Hin].
  destruct k as [kt kid]. cbn [fst] in Hk. subst kt.
  unfold createOrUpdateRecord. rewrite Hs1, Hs2. cbn [negb]. cbv beta iota zeta.
  unfold fld. rewrite Hi1, Hi2, <- H1, <- H2, <- H3, <- H4, <- H5. cbn [of_raw].
  destruct (decide (i1 = i2)) as [->|Hne].
  all: unfold bind at 1; rewrite Hget; repeat mstep.
  all: eexists _, _, (Address, kid), _, _; (split; [reflexivity|]).
  all: unfold bind;
    rewrite (getOrCreateAddress_again _ _ _ _ _ db db0 _ (Address, kid) Hget)
      by (by intros [jt jid] Hj; cbn [fst] in Hj; subst jt; rewrite lookup_insert_ne).
  all: repeat mstep; unfold ret.
  all: (split; [reflexivity|]); (split; [done|]); (split; [by stays|]).
  all: split;
    [by rewrite ?lookup_insert_eq, ?(lookup_insert_ne _ (Name, i2) (Name, i1)),
          ?lookup_insert_eq by congruence|].
  all: (split; [by get_field|]).
  all: (split; [by rewrite lookup_insert_eq|]); (split; [by get_field|]).
  all: intros [jt jid] Hj; cbn [fst] in Hj; subst jt; by rewrite !lookup_insert_ne.
Qed.

(** X22: a NumberToReuse record is attached to the sequence of its key.
    The stored object refers, as its [numberSequence], to a NumberSequence
    of the database whose [sequenceKey] is the key the record's name
    translates to: one the database had with that key, or, when it had
    none, a new one under an identifier that no object had. *)
Theorem numberToReuse_joins_sequence (now : date) (record : raw) (db : store)
    (i s : string) :
  truthy (sanityCheckIncomingRecord NumberToReuse record) = true →
  record !! "ID" = Some i →
  SEQUENCE_KEYS T (record !! "name") (get_THIS_STORE_ID settings) = Some s →
  s ≠ "" →
  ∃ db' o k sequence,
    createOrUpdateRecord parseFloat now T settings NumberToReuse record db = Ok (tt, db')
    ∧ db' !! (NumberToReuse, i) = Some o
    ∧ o !! "numberSequence" = Some (VObj k)
    ∧ k.1 = NumberSequence
    ∧ db' !! k = Some sequence
    ∧ sequence !! "sequenceKey" = Some (VStr s)
    ∧ if decide (query NumberSequence "sequenceKey" s db = ∅)
      then ∀ t, db !! (t, k.2) = None
      else is_Some (query NumberSequence "sequenceKey" s db !! k).
Proof.
  intros Hs Hi Hsk Hne.
  start_sane Hs. rewrite Hsk. cbn [of_raw truthy].
  destruct (String.eqb_spec s ""); [done|]. cbn [negb].
  unfold fld; rewrite Hi; cbn [of_raw]. unfold bind. cbv beta iota zeta.
  rewrite getObject_query by done.
  destruct (first (query NumberSequence "sequenceKey" s db)) as [k|] eqn:Hf.
  - destruct (first_Some _ _ Hf) as [q Hq]. pose proof Hq as Hq'.
    rewrite lookup_query in Hq. case_decide as Hk; [|done].
    destruct (db !! k) as [sq|] eqn:Hdb; [|done].
    destruct (prop_is "sequenceKey" s (k, sq)) eqn:Hp; [|done].
    apply prop_is_field in Hp; [|done].
    destruct k as [kt kid]. cbn [fst] in Hk. subst kt.
    repeat mstep. unfold ret.
    eexists _, _, (NumberSequence, kid), _. split; [reflexivity|].
    split; [lk; reflexivity|]. split; [by get_field|]. split; [done|].
    split; [lk; rewrite Hdb; cbn [fmap option_fmap option_map]; reflexivity|].
    split; [by rewrite lookup_add_to, decide_False|].
    rewrite decide_False; [by eauto|]. intros He. by rewrite He in Hq'.
  - apply first_None in Hf.
    cbn [generatePlaceholder]. unfold bind, generateUUID, gets, ret, db_create.
    rewrite lookup_mkobj. cbn [assoc String.eqb Ascii.eqb Bool.eqb].
    rewrite generateUUID_fresh. repeat mstep. unfold ret.
    eexists _, _, (NumberSequence, fresh (ids db)), _. split; [reflexivity|].
    split; [lk; reflexivity|]. split; [by get_field|]. split; [done|].
    split; [lk; cbn [fmap option_fmap option_map]; reflexivity|].
    split; [rewrite lookup_add_to, decide_False by done; by rewrite lookup_mkobj|].
    rewrite decide_True by done. intros t. apply generateUUID_fresh.
Qed.
End compositions.

Section round_trip.
Variable parseFloat : string → float.
Variable T : translators.
Variable E : entryTranslators.
Variable settings : Settings.



End round_trip.

Section replays.
Variable parseFloat : string → float.
Variable T : translators.
Variable settings : Settings.

(** X24: deleting the same record twice.  Once a delete has removed the
    object, a second delete for its identifier leaves the database as the
    first one left it for a type with a placeholder template, and throws for
    a type without one. *)
Theorem deleteRecord_twice (now now' : date) (type : recordType) (recordId : string)
    (db : store) (o : obj) :
  supported type = true → recordId ≠ "" → db !! (type, recordId) = Some o →
  ∃ db1,
    deleteRecord now type (Some recordId) db = Ok (tt, db1)
    ∧ deleteRecord now' type (Some recordId) db1
      = if has_template type then Ok (tt, db1)
        else Throw "Unsupported database object type.".
Proof.
  intros Hsup Hid Hdb. exists (delete (type, recordId) db).
  split; [by apply deleteRecord_present with o|].
  rewrite deleteRecord_supported by done. unfold bind.
  destruct (has_template type) eqn:Ht.
  - destruct (getObject_absent now' type recordId (delete (type, recordId) db) Ht Hid)
      as (k & p & -> & _ & Hk); [apply lookup_delete_eq|].
    cbn [db_delete]. unfold modify. by rewrite delete_insert_eq, delete_id.
  - by rewrite getObject_untemplated, lookup_delete_eq.
Qed.

Lemma itemBatch_before_its_item (now : date) (batch : raw) (db : store)
    (batchId itemId : string) :
  truthy (sanityCheckIncomingRecord ItemBatch batch) = true →
  batch !! "ID" = Some batchId →
  batch !! "item_ID" = Some itemId →
  db !! (Item, itemId) = None →
  ∃ db1 placeholder batchObject,
    createOrUpdateRecord parseFloat now T settings ItemBatch batch db = Ok (tt, db1)
    ∧ db1 !! (Item, itemId) = Some placeholder
    ∧ placeholder !! "name" = Some (VStr "placeholder")
    ∧ db1 !! (ItemBatch, batchId) = Some batchObject
    ∧ batchObject !! "item" = Some (VObj (Item, itemId)).
Proof.
  intros Hs Hb Hbi Hdb. start_sane Hs. unfold fld; rewrite Hb; cbn [of_raw]. mrun.
  all: cbn [db_save ret]; unfold ret; simplify_eq.
  all: eexists _, _, _; (split; [reflexivity|]).
  all: split;
    [lk; rewrite Hdb; cbn [fmap option_fmap option_map default]; reflexivity|].
  all: split;
    [rewrite lookup_add_to, decide_False by done; unfold tmpl, template;
     cbn [fst snd generatePlaceholder ret default from_option id];
     by rewrite lookup_mkobj|].
  all: split; [lk; reflexivity | by get_field].
Qed.

Lemma item_record_names_item (now : date) (item : raw) (db : store)
    (itemId name : string) :
  truthy (sanityCheckIncomingRecord Item item) = true →
  item !! "ID" = Some itemId →
  item !! "item_name" = Some name →
  ∃ db' itemObject,
    createOrUpdateRecord parseFloat now T settings Item item db = Ok (tt, db')
    ∧ db' !! (Item, itemId) = Some itemObject
    ∧ itemObject !! "name" = Some (VStr name)
    ∧ ∀ k, k.1 = ItemBatch → db' !! k = db !! k.
Proof.
  intros Hs Hi Hn. start_sane Hs. unfold fld; rewrite Hi, Hn; cbn [of_raw]. mrun.
  all: unfold ret.
  all: eexists _, _; (split; [reflexivity|]).
  all: split; [lk; reflexivity|]; split; [by get_field|].
  all: intros [kt kid] Hk; cbn [fst] in Hk; subst kt; by lk.
Qed.

(** X25: records may arrive before the records they refer to.  When an
    ItemBatch record names an Item the database does not have, a placeholder
    Item is stored; when the Item record arrives, the object under that
    identifier takes the record's name, and the batch still has it as its
    [item]. *)
Theorem item_after_its_batch (now now' : date) (batch item : raw) (db : store)
    (batchId itemId name : string) :
  truthy (sanityCheckIncomingRecord ItemBatch batch) = true →
  truthy (sanityCheckIncomingRecord Item item) = true →
  batch !! "ID" = Some batchId →
  batch !! "item_ID" = Some itemId →
  item !! "ID" = Some itemId →
  item !! "item_name" = Some name →
  db !! (Item, itemId) = None →
  ∃ db1 db2 placeholder itemObject batchObject,
    createOrUpdateRecord parseFloat now T settings ItemBatch batch db = Ok (tt, db1)
    ∧ db1 !! (Item, itemId) = Some placeholder
    ∧ placeholder !! "name" = Some (VStr "placeholder")
    ∧ createOrUpdateRecord parseFloat now' T settings Item item db1 = Ok (tt, db2)
    ∧ db2 !! (Item, itemId) = Some itemObject
    ∧ itemObject !! "name" = Some (VStr name)
    ∧ db2 !! (ItemBatch, batchId) = Some batchObject
    ∧ batchObject !! "item" = Some (VObj (Item, itemId)).
Proof.
  intros Hsb Hsi Hb Hbi Hi Hn Hdb.
  destruct (itemBatch_before_its_item now batch db batchId itemId Hsb Hb Hbi Hdb)
    as (db1 & placeholder & batchObject & Hdb1 & Hp & Hpn & Hbo & Hbo').
  destruct (item_record_names_item now' item db1 itemId name Hsi Hi Hn)
    as (db2 & itemObject & Hdb2 & Hio & Hion & Hsame).
  exists db1, db2, placeholder, itemObject, batchObject.
  repeat split; try done. by rewrite Hsame.
Qed.
End replays.

(** ** The theorems at work *)

Lemma createOrUpdateRecord_stores_record_witness :
  ∃ db' o,
    createOrUpdateRecord parseFloat_digits (WallClock 0) example_translators
      example_settings ItemBatch (example_item_batch "3") ∅ = Ok (tt, db')
    ∧ db' !! (ItemBatch, "b1") = Some o
    ∧ o !! "id" = Some (VStr "b1")
    ∧ Forall (resolved (example_item_batch "3") db' o) (relations ItemBatch).
Proof.
  destruct (createOrUpdateRecord_stores_record parseFloat_digits example_translators
              example_settings (WallClock 0) ItemBatch (example_item_batch "3") ∅ "b1"
              eq_refl eq_refl) as [Hret Hstored]; [by intros [|]|].
  destruct Hret as [db' Hdb']; [done | done |].
  destruct (Hstored db' Hdb') as (o & Ho). by exists db', o.
Defined.

Lemma createOrUpdateRecord_never_removes_witness :
  ∃ db',
    createOrUpdateRecord parseFloat_digits (WallClock 0) example_translators
      example_settings Name (example_name "n1" "Kiri") example_address_db = Ok (tt, db')
    ∧ is_Some (db' !! (Address, "a1")).
Proof.
  destruct (createOrUpdateRecord_returns parseFloat_digits example_translators
              example_settings (WallClock 0) Name (example_name "n1" "Kiri")
              example_address_db) as [db' Hdb']; [reflexivity | done | done |].
  exists db'. split; [done|].
  apply (createOrUpdateRecord_never_removes parseFloat_digits example_translators
           example_settings (WallClock 0) Name (example_name "n1" "Kiri")
           example_address_db db' (Address, "a1") Hdb').
  unfold example_address_db. rewrite lookup_singleton_eq. eauto.
Defined.

Lemma masterListItem_needs_master_list_witness :
  createOrUpdateRecord parseFloat_digits (WallClock 0) example_translators
    example_settings MasterListItem example_master_list_item ∅ = TypeError ∅.
Proof.
  apply (proj1 (masterListItem_needs_master_list parseFloat_digits example_translators
                  example_settings (WallClock 0) example_master_list_item ∅ eq_refl)).
  intros (s & Hs & _). vm_compute in Hs. congruence.
Defined.

Lemma store_join_visibility_witness :
  ∃ db' join,
    createOrUpdateRecord parseFloat_digits (WallClock 0) example_translators
      example_settings ItemStoreJoin example_item_store_join ∅ = Ok (tt, db')
    ∧ db' !! (ItemStoreJoin, "j1") = Some join
    ∧ if bool_decide (example_item_store_join !! "store_ID"
                      = get_THIS_STORE_ID example_settings)
      then join !! "joinsThisStore" = Some (VBool true)
           ∧ ∃ o, db' !! (Item, "i1") = Some o
                  ∧ o !! "isVisible"
                    = Some (VBool (negb (truthy (parseBoolean
                                (example_item_store_join !! "inactive")))))
      else join !! "joinsThisStore" = Some (VBool false)
           ∧ db' = <[(ItemStoreJoin, "j1") := join]> ∅.
Proof.
  exact (store_join_visibility parseFloat_digits example_translators example_settings
           (WallClock 0) ItemStoreJoin Item example_item_store_join ∅ "j1" "item_ID" "i1"
           eq_refl eq_refl eq_refl eq_refl).
Defined.

Lemma itemBatch_cost_price_is_sell_price_witness :
  createOrUpdateRecord parseFloat_digits (WallClock 0) example_translators
    example_settings ItemBatch (<["cost_price" := "9"]> (example_item_batch "3")) ∅
  = createOrUpdateRecord parseFloat_digits (WallClock 0) example_translators
      example_settings ItemBatch (example_item_batch "3") ∅.
Proof.
  apply (itemBatch_cost_price_is_sell_price parseFloat_digits example_translators
           example_settings (WallClock 0) (example_item_batch "3") ∅ "b1" "9"
           eq_refl eq_refl).
  done.
Defined.

Lemma transactionBatch_relinks_item_batch_witness :
  ∃ db' itemBatch,
    createOrUpdateRecord parseFloat_digits (WallClock 0) example_translators
      example_settings TransactionBatch example_transaction_batch ∅ = Ok (tt, db')
    ∧ db' !! (ItemBatch, "b1") = Some itemBatch
    ∧ itemBatch !! "item" = Some (VObj (Item, "i1"))
    ∧ is_Some (db' !! (Item, "i1")).
Proof.
  exact (transactionBatch_relinks_item_batch parseFloat_digits example_translators
           example_settings (WallClock 0) example_transaction_batch ∅ "b1" "i1"
           eq_refl eq_refl eq_refl).
Defined.

Lemma masterListNameJoin_sets_master_list_witness :
  ∃ db' name join,
    createOrUpdateRecord parseFloat_digits (WallClock 0) example_translators
      example_settings MasterListNameJoin example_master_list_name_join ∅ = Ok (tt, db')
    ∧ db' !! (Name, "n1") = Some name
    ∧ name !! "masterList" = Some (VObj (MasterList, "l1"))
    ∧ is_Some (db' !! (MasterList, "l1"))
    ∧ db' !! (MasterListNameJoin, "mj1") = Some join
    ∧ join !! "name" = Some (VObj (Name, "n1"))
    ∧ join !! "masterList" = Some (VObj (MasterList, "l1")).
Proof.
  exact (masterListNameJoin_sets_master_list parseFloat_digits example_translators
           example_settings (WallClock 0) example_master_list_name_join ∅
           "mj1" "n1" "l1" eq_refl eq_refl eq_refl eq_refl).
Defined.

Lemma names_share_billing_address_witness :
  ∃ db1 db2 address name1 name2,
    createOrUpdateRecord parseFloat_digits (WallClock 0) example_translators
      example_settings Name (example_name "n1" "Kiri") ∅ = Ok (tt, db1)
    ∧ createOrUpdateRecord parseFloat_digits (WallClock 1) example_translators
        example_settings Name (example_name "n2" "Mere") db1 = Ok (tt, db2)
    ∧ address.1 = Address ∧ is_Some (db2 !! address)
    ∧ db2 !! (Name, "n1") = Some name1
    ∧ name1 !! "billingAddress" = Some (VObj address)
    ∧ db2 !! (Name, "n2") = Some name2
    ∧ name2 !! "billingAddress" = Some (VObj address)
    ∧ ∀ k, k.1 = Address → db2 !! k = db1 !! k.
Proof.
  apply (names_share_billing_address parseFloat_digits example_translators
           example_settings (WallClock 0) (WallClock 1)
           (example_name "n1" "Kiri") (example_name "n2" "Mere") ∅ "n1" "n2"
           eq_refl eq_refl eq_refl eq_refl).
  repeat constructor.
Defined.


Lemma numberToReuse_joins_sequence_witness :
  ∃ db' o k sequence,
    createOrUpdateRecord parseFloat_digits (WallClock 0) example_translators
      example_settings NumberToReuse example_number_to_reuse ∅ = Ok (tt, db')
    ∧ db' !! (NumberToReuse, "r1") = Some o
    ∧ o !! "numberSequence" = Some (VObj k)
    ∧ k.1 = NumberSequence
    ∧ db' !! k = Some sequence
    ∧ sequence !! "sequenceKey" = Some (VStr "stocktake_serial_number")
    ∧ if decide (query NumberSequence "sequenceKey" "stocktake_serial_number" ∅ = ∅)
      then ∀ t, (∅ : store) !! (t, k.2) = None
      else is_Some (query NumberSequence "sequenceKey" "stocktake_serial_number" ∅ !! k).
Proof.
  apply (numberToReuse_joins_sequence parseFloat_digits example_translators
           example_settings (WallClock 0) example_number_to_reuse ∅ "r1"
           "stocktake_serial_number"); done.
Defined.

Lemma deleteRecord_twice_witness :
  ∃ db1,
    deleteRecord (WallClock 0) StocktakeBatch (Some "sb1")
      {[ (StocktakeBatch, "sb1") := mkobj [("id", VStr "sb1")] ]} = Ok (tt, db1)
    ∧ deleteRecord (WallClock 1) StocktakeBatch (Some "sb1") db1
      = Throw "Unsupported database object type.".
Proof.
  apply (deleteRecord_twice (WallClock 0) (WallClock 1) StocktakeBatch "sb1"
           {[ (StocktakeBatch, "sb1") := mkobj [("id", VStr "sb1")] ]}
           (mkobj [("id", VStr "sb1")])); done.
Defined.

Lemma item_after_its_batch_witness :
  ∃ db1 db2 placeholder itemObject batchObject,
    createOrUpdateRecord parseFloat_digits (WallClock 0) example_translators
      example_settings ItemBatch (example_item_batch "3") ∅ = Ok (tt, db1)
    ∧ db1 !! (Item, "i1") = Some placeholder
    ∧ placeholder !! "name" = Some (VStr "placeholder")
    ∧ createOrUpdateRecord parseFloat_digits (WallClock 1) example_translators
        example_settings Item example_item db1 = Ok (tt, db2)
    ∧ db2 !! (Item, "i1") = Some itemObject
    ∧ itemObject !! "name" = Some (VStr "Amoxicillin")
    ∧ db2 !! (ItemBatch, "b1") = Some batchObject
    ∧ batchObject !! "item" = Some (VObj (Item, "i1")).
Proof.
  exact (item_after_its_batch parseFloat_digits example_translators example_settings
           (WallClock 0) (WallClock 1) (example_item_batch "3") example_item ∅
           "b1" "i1" "Amoxicillin" eq_refl eq_refl eq_refl eq_refl eq_refl eq_refl
           eq_refl).
Defined.
